(** * flow-api-go: a client for the Flow Production Tracking REST API

    A shallow embedding of [client.go] and [entities.go].

    The package is glue over [net/http], [encoding/json] and [time].  The
    code of the package is embedded function by function; what the libraries
    and the outside world decide (the clock, the HTTP transport, the JSON
    codec) is gathered in the class [Runtime], over which every definition and
    theorem is parametric. *)

From Stdlib Require Import ZArith String Ascii List Lia.
From Stdlib Require Import Floats.SpecFloat.
From stdpp Require Import gmap strings pretty list fin_maps sorting.

Set Warnings "-register-all".
Set Default Proof Using "Type".

Open Scope string_scope.
Open Scope Z_scope.

(** ** Go values *)

(** A Go slice is either [nil] or a (possibly empty) backing sequence.  The
    two have length 0 alike but are told apart by [== nil] and by
    [json.Marshal].  [elems] is what [range] and [len] see. *)
Inductive slice (A : Type) : Type :=
| nil_slice
| mk_slice (l : list A).
Arguments nil_slice {A}.
Arguments mk_slice {A} l.

Definition elems {A} (s : slice A) : list A :=
  match s with nil_slice => [] | mk_slice l => l end.

(** [float64] values, as their IEEE 754 description. *)
Definition float64 : Type := spec_float.

(** The dynamic values an [interface{}] holds in this package: what
    [encoding/json] decodes into an [interface{}] (nil, bool, float64, string,
    [[]interface{}], [map[string]interface{}]) and what the package itself
    builds ([int], [[]int]).  [VNil] is the nil interface; [VSlice nil_slice]
    is a typed nil slice, which is not [== nil] as an interface. *)
Inductive GoVal : Type :=
| VNil
| VBool (b : bool)
| VInt (n : Z)
| VFloat (f : float64)
| VString (s : string)
| VInts (l : slice Z)
| VSlice (l : slice GoVal)
| VMap (m : gmap string GoVal).

(** [type Entity map[string]interface{}] *)
Abbreviation Entity := (gmap string GoVal).

(** ** Errors

    The package builds every error with [fmt.Errorf].  Without a [%w] verb
    [fmt.Errorf] returns what [errors.New] returns, a bare message; with [%w]
    it returns a wrapper that keeps the wrapped error next to the formatted
    message.  [LibError] stands for an error value made by a library
    ([net/http], [net/url], [io], [encoding/json]). *)
Inductive error : Type :=
| LibError (msg : string)
| ErrorString (msg : string)
| WrapError (msg : string) (err : error).

(** [err.Error()] *)
Definition Error (e : error) : string :=
  match e with
  | LibError msg => msg
  | ErrorString msg => msg
  | WrapError msg _ => msg
  end.

(** [errors.Unwrap(err)] *)
Definition Unwrap (e : error) : option error :=
  match e with
  | WrapError _ err => Some err
  | _ => None
  end.

(** [fmt.Errorf(prefix + "%w", err)] *)
Definition Errorf_w (prefix : string) (err : error) : error :=
  WrapError (prefix +:+ Error err) err.

(** [fmt.Errorf(what + " failed with status %d: %s", status, body)] *)
Definition Errorf_status (what : string) (status : Z) (body : string) : error :=
  ErrorString (what +:+ " failed with status " +:+ pretty status +:+ ": " +:+ body).

(** ** Time

    An instant is a number of nanoseconds on one time line; a
    [time.Duration] is an [int64] count of nanoseconds, and its arithmetic
    wraps around. *)
Definition Time : Type := Z.
Definition Duration : Type := Z.

Definition wrap64 (z : Z) : Z := (z + 2 ^ 63) mod 2 ^ 64 - 2 ^ 63.

Definition Second : Duration := 1000000000.

(** [d * e] on [time.Duration] *)
Definition Duration_mul (d e : Duration) : Duration := wrap64 (d * e).

(** [t.Add(d)], [t.After(u)], [t.Before(u)] *)
Definition Time_Add (t : Time) (d : Duration) : Time := t + d.
Definition Time_After (t u : Time) : bool := u <? t.
Definition Time_Before (t u : Time) : bool := t <? u.

(** ** HTTP *)

Record Request : Type := mkRequest {
  Method : string;
  URL : string;
  Header : gmap string string;
  Body : option string;
}.

(** [req.Header.Set(key, value)], for keys already in canonical form. *)
Definition Header_Set (key value : string) (req : Request) : Request :=
  {| Method := Method req; URL := URL req;
     Header := <[key := value]> (Header req); Body := Body req |}.

(** What [httpClient.Do(req)] followed by [io.ReadAll(resp.Body)] gives:
    [Do] fails, or it answers with a status code and a body that is read
    entirely or whose reading fails. *)
Inductive DoResult : Type :=
| DoError (err : error)
| DoResponse (StatusCode : Z) (body : error + string).

(** An [*http.Client]: it answers a request, knowing the requests already
    sent. *)
Definition HTTPClient : Type := list Request → Request → DoResult.

(** ** Decoded responses *)

Record TokenResponse : Type := mkTokenResponse {
  TokenType : string;
  AccessToken : string;
  ExpiresIn : Z;
  RefreshToken : string;
}.

(** One element of the [data] of an entity response.  A nil map is ranged
    over like the empty map, and the package only ranges over these two. *)
Record Item : Type := mkItem {
  ID : Z;
  Type_ : string;
  Attributes : gmap string GoVal;
  Relationships : gmap string GoVal;
}.

(** ** The libraries and the outside world *)

Class Runtime : Type := {
  (** the instant the [k]-th call of [time.Now()] reads *)
  clock : nat → Time;
  (** [&http.Client{Timeout: defaultTimeout}] *)
  defaultHTTPClient : HTTPClient;
  (** the error of [url.Parse], by which [http.NewRequest] fails *)
  url_Parse_error : string → option error;
  (** [url.QueryEscape] *)
  url_QueryEscape : string → string;
  (** how [json.Marshal] writes a string and a [float64] *)
  json_string : string → string;
  json_float64 : float64 → error + string;
  (** [json.Unmarshal] into a [TokenResponse], into the search result (a
      list of items under [data]) and into the single-item result *)
  json_Unmarshal_token : string → error + TokenResponse;
  json_Unmarshal_items : string → error + list Item;
  json_Unmarshal_item : string → error + Item;
  (** [int(f)] where [f] does not fit: the result depends on the platform *)
  int_of_float64_overflow : float64 → Z;
  (** the order in which [range] visits the keys of a [map[int]bool] *)
  range_keys : gset Z → list Z;
}.

(** ** The client *)

Definition defaultAPIVersion : string := "v1.1".

Record Client : Type := mkClient {
  baseURL : string;
  httpClient : HTTPClient;
  apiVersion : string;
  accessToken : string;
  refreshToken : string;
  tokenExpiry : Time;
  scriptName : string;
  scriptKey : string;
}.

Record Config : Type := mkConfig {
  SiteURL : string;
  ScriptName : string;
  ScriptKey : string;
  APIVersion : string;
  HTTPClient_ : option HTTPClient;
}.

(** What an execution has done so far: how often the clock was read, the
    requests handed to [httpClient.Do] (oldest first), and how often
    [authenticate] was entered. *)
Record World : Type := mkWorld {
  ticks : nat;
  wire : list Request;
  exchanges : nat;
}.

(** A method of [*Client]: it may change the client and the world. *)
Definition Go (A : Type) : Type := Client → World → A * Client * World.

#[export] Instance Go_ret : MRet Go := λ A a c w, (a, c, w).

#[export] Instance Go_bind : MBind Go :=
  λ A B k m c w, let '(a, c', w') := m c w in k a c' w'.

Abbreviation ret := mret (only parsing).

Definition self : Go Client := λ c w, (c, c, w).

Definition set_token (a r : string) (t : Time) : Go unit :=
  λ c w, (tt,
          {| baseURL := baseURL c; httpClient := httpClient c;
             apiVersion := apiVersion c;
             accessToken := a; refreshToken := r; tokenExpiry := t;
             scriptName := scriptName c; scriptKey := scriptKey c |},
          w).

Definition enter_authenticate : Go unit :=
  λ c w, (tt, c, {| ticks := ticks w; wire := wire w;
                    exchanges := S (exchanges w) |}).

Section Package.
Context `{rt : Runtime}.

(** [time.Now()] *)
Definition time_Now : Go Time :=
  λ c w, (clock (ticks w), c,
          {| ticks := S (ticks w); wire := wire w; exchanges := exchanges w |}).

(** [c.httpClient.Do(req)] and [io.ReadAll(resp.Body)] *)
Definition Do (req : Request) : Go DoResult :=
  λ c w, (httpClient c (wire w) req, c,
          {| ticks := ticks w; wire := wire w ++ [req];
             exchanges := exchanges w |}).

(** [http.NewRequest(method, url, body)]: the request, or the error of
    parsing [url]. *)
Definition http_NewRequest (method url : string) (body : option string)
  : error + Request :=
  match url_Parse_error url with
  | Some err => inl err
  | None => inr {| Method := method; URL := url; Header := ∅; Body := body |}
  end.

(** [data.Encode()] for the three form fields of [authenticate]; [Encode]
    writes the keys in sorted order. *)
Definition form (client_id client_secret : string) : string :=
  "client_id=" +:+ url_QueryEscape client_id +:+
  "&client_secret=" +:+ url_QueryEscape client_secret +:+
  "&grant_type=client_credentials".

(** [func (c *Client) authenticate() error] *)
Definition authenticate : Go (option error) :=
  enter_authenticate;;
  c ← self;
  let authURL :=
    baseURL c +:+ "/api/" +:+ apiVersion c +:+ "/auth/access_token" in
  let data := form (scriptName c) (scriptKey c) in
  match http_NewRequest "POST" authURL (Some data) with
  | inl err => ret (Some (Errorf_w "failed to create request: " err))
  | inr req =>
    let req := Header_Set "Content-Type" "application/x-www-form-urlencoded" req in
    let req := Header_Set "Accept" "application/json" req in
    resp ← Do req;
    match resp with
    | DoError err => ret (Some (Errorf_w "failed to send request: " err))
    | DoResponse _ (inl err) =>
      ret (Some (Errorf_w "failed to read response: " err))
    | DoResponse StatusCode (inr body) =>
      if negb (StatusCode =? 200) then
        ret (Some (Errorf_status "authentication" StatusCode body))
      else
        match json_Unmarshal_token body with
        | inl err => ret (Some (Errorf_w "failed to parse token response: " err))
        | inr tokenResp =>
          now ← time_Now;
          set_token (AccessToken tokenResp) (RefreshToken tokenResp)
            (Time_Add now (Duration_mul (ExpiresIn tokenResp) Second));;
          ret None
        end
    end
  end.

(** [func (c *Client) GetAccessToken() (string, error)] *)
Definition GetAccessToken : Go (string * option error) :=
  now ← time_Now;
  c ← self;
  if Time_After (Time_Add now (Duration_mul 60 Second)) (tokenExpiry c) then
    err ← authenticate;
    match err with
    | Some err => ret ("", Some err)
    | None => c ← self; ret (accessToken c, None)
    end
  else
    ret (accessToken c, None).

(** [func (c *Client) IsAuthenticated() bool] *)
Definition IsAuthenticated : Go bool :=
  c ← self;
  if negb (String.eqb (accessToken c) "") then
    now ← time_Now;
    ret (Time_Before now (tokenExpiry c))
  else
    ret false.

(** [func NewClient(config Config)], returning a [*Client] and an [error] *)
Definition NewClient (config : Config) (w : World)
  : option Client * option error * World :=
  if String.eqb (SiteURL config) "" then
    (None, Some (ErrorString "site URL is required"), w)
  else if String.eqb (ScriptName config) "" then
    (None, Some (ErrorString "script name is required"), w)
  else if String.eqb (ScriptKey config) "" then
    (None, Some (ErrorString "script key is required"), w)
  else
    let apiVersion :=
      if String.eqb (APIVersion config) "" then defaultAPIVersion
      else APIVersion config in
    let httpClient :=
      match HTTPClient_ config with
      | None => defaultHTTPClient
      | Some h => h
      end in
    let client :=
      {| baseURL := SiteURL config; apiVersion := apiVersion;
         httpClient := httpClient;
         accessToken := ""; refreshToken := ""; tokenExpiry := 0;
         scriptName := ScriptName config; scriptKey := ScriptKey config |} in
    let '(err, client, w) := authenticate client w in
    match err with
    | Some err =>
      (None, Some (Errorf_w "initial authentication failed: " err), w)
    | None => (Some client, None, w)
    end.

(** ** Encoding requests: [json.Marshal]

    The structure of the text is written out: an object lists its fields in
    the sorted order of the keys, a nil slice is [null] and an empty one is
    an empty array.  How a string and a [float64] are spelled is left to the
    runtime; [json_float64] fails on NaN and the infinities, and the first
    failure met is the error of the whole call. *)

Definition json_array (items : list string) : string :=
  "[" +:+ String.concat "," items +:+ "]".

Definition json_field (kv : string * string) : string :=
  json_string kv.1 +:+ ":" +:+ kv.2.

Definition json_object (fields : list (string * string)) : string :=
  "{" +:+ String.concat "," (json_field <$> fields) +:+ "}".

Fixpoint all_encoded {A} (l : list (A * (error + string)))
  : error + list (A * string) :=
  match l with
  | [] => inr []
  | (_, inl err) :: _ => inl err
  | (a, inr s) :: l =>
    match all_encoded l with
    | inl err => inl err
    | inr l => inr ((a, s) :: l)
    end
  end.

Definition key_le {A} (x y : string * A) : Prop := String.leb x.1 y.1.

Fixpoint json_Marshal (v : GoVal) : error + string :=
  match v with
  | VNil => inr "null"
  | VBool b => inr (if b then "true" else "false")
  | VInt n => inr (pretty n)
  | VFloat f => json_float64 f
  | VString s => inr (json_string s)
  | VInts nil_slice => inr "null"
  | VInts (mk_slice l) => inr (json_array (pretty <$> l))
  | VSlice nil_slice => inr "null"
  | VSlice (mk_slice l) =>
    match all_encoded (map (λ x, (tt, json_Marshal x)) l) with
    | inl err => inl err
    | inr items => inr (json_array (snd <$> items))
    end
  | VMap m =>
    let fields := map_fold (λ k x acc, (k, json_Marshal x) :: acc) [] m in
    match all_encoded (merge_sort key_le fields) with
    | inl err => inl err
    | inr fields => inr (json_object fields)
    end
  end.

(** ** Entity operations *)

(** The flattening loop [for k, v := range m { entity[k] = v }]. *)
Definition merge_into (m : gmap string GoVal) (entity : Entity) : Entity :=
  map_fold (λ k v entity, <[k := v]> entity) entity m.

(** The body shared by the three conversions to [Entity]. *)
Definition flatten (item : Item) : Entity :=
  let entity : Entity :=
    <["type" := VString (Type_ item)]> (<["id" := VInt (ID item)]> ∅) in
  let entity := merge_into (Attributes item) entity in
  let entity := merge_into (Relationships item) entity in
  entity.

Definition is_nil (v : GoVal) : bool :=
  match v with VNil => true | _ => false end.

(** [url += "?fields=" + strings.Join(fields, ",")] when [len(fields) > 0] *)
Definition with_fields (url : string) (fields : list string) : string :=
  match fields with
  | [] => url
  | _ => url +:+ "?fields=" +:+ String.concat "," fields
  end.

(** [func (c *Client) FindEntities(entityType string, filters interface{},
    fields []string) ([]Entity, error)] *)
Definition FindEntities (entityType : string) (filters : GoVal)
    (fields : list string) : Go (slice Entity * option error) :=
  '(token, err) ← GetAccessToken;
  match err with
  | Some err => ret (nil_slice, Some (Errorf_w "failed to get access token: " err))
  | None =>
    let body : gmap string GoVal := ∅ in
    let body :=
      if negb (is_nil filters) then <["filters" := filters]> body
      else <["filters" := VSlice (mk_slice [])]> body in
    match json_Marshal (VMap body) with
    | inl err => ret (nil_slice, Some (Errorf_w "failed to marshal request: " err))
    | inr bodyJSON =>
      c ← self;
      let url := baseURL c +:+ "/api/" +:+ apiVersion c +:+ "/entity/"
                 +:+ entityType +:+ "/_search" in
      let url := with_fields url fields in
      match http_NewRequest "POST" url (Some bodyJSON) with
      | inl err => ret (nil_slice, Some (Errorf_w "failed to create request: " err))
      | inr req =>
        let req := Header_Set "Authorization" ("Bearer " +:+ token) req in
        let req := Header_Set "Content-Type"
                     "application/vnd+shotgun.api3_array+json" req in
        let req := Header_Set "Accept" "application/json" req in
        resp ← Do req;
        match resp with
        | DoError err => ret (nil_slice, Some (Errorf_w "failed to send request: " err))
        | DoResponse _ (inl err) =>
          ret (nil_slice, Some (Errorf_w "failed to read response: " err))
        | DoResponse StatusCode (inr respBody) =>
          if negb (StatusCode =? 200) then
            ret (nil_slice, Some (Errorf_status "request" StatusCode respBody))
          else
            match json_Unmarshal_items respBody with
            | inl err =>
              ret (nil_slice, Some (Errorf_w "failed to parse response: " err))
            | inr data => ret (mk_slice (flatten <$> data), None)
            end
        end
      end
    end
  end.

(** [func (c *Client) GetEntity(entityType string, id int, fields []string)
    (Entity, error)]; a nil [Entity] is [None]. *)
Definition GetEntity (entityType : string) (id : Z) (fields : list string)
  : Go (option Entity * option error) :=
  '(token, err) ← GetAccessToken;
  match err with
  | Some err => ret (None, Some (Errorf_w "failed to get access token: " err))
  | None =>
    c ← self;
    let url := baseURL c +:+ "/api/" +:+ apiVersion c +:+ "/entity/"
               +:+ entityType +:+ "/" +:+ pretty id in
    let url := with_fields url fields in
    match http_NewRequest "GET" url None with
    | inl err => ret (None, Some (Errorf_w "failed to create request: " err))
    | inr req =>
      let req := Header_Set "Authorization" ("Bearer " +:+ token) req in
      let req := Header_Set "Accept" "application/json" req in
      resp ← Do req;
      match resp with
      | DoError err => ret (None, Some (Errorf_w "failed to send request: " err))
      | DoResponse _ (inl err) =>
        ret (None, Some (Errorf_w "failed to read response: " err))
      | DoResponse StatusCode (inr respBody) =>
        if negb (StatusCode =? 200) then
          ret (None, Some (Errorf_status "request" StatusCode respBody))
        else
          match json_Unmarshal_item respBody with
          | inl err => ret (None, Some (Errorf_w "failed to parse response: " err))
          | inr data => ret (Some (flatten data), None)
          end
      end
    end
  end.

(** [func (c *Client) CreateEntity(entityType string,
    data map[string]interface{}) (Entity, error)]; a nil [data] is [None],
    which [json.Marshal] writes as [null]. *)
Definition CreateEntity (entityType : string)
    (data : option (gmap string GoVal))
  : Go (option Entity * option error) :=
  '(token, err) ← GetAccessToken;
  match err with
  | Some err => ret (None, Some (Errorf_w "failed to get access token: " err))
  | None =>
    match from_option (λ m, json_Marshal (VMap m)) (inr "null") data with
    | inl err => ret (None, Some (Errorf_w "failed to marshal request: " err))
    | inr bodyJSON =>
      c ← self;
      let url := baseURL c +:+ "/api/" +:+ apiVersion c +:+ "/entity/"
                 +:+ entityType in
      match http_NewRequest "POST" url (Some bodyJSON) with
      | inl err => ret (None, Some (Errorf_w "failed to create request: " err))
      | inr req =>
        let req := Header_Set "Authorization" ("Bearer " +:+ token) req in
        let req := Header_Set "Content-Type" "application/json" req in
        let req := Header_Set "Accept" "application/json" req in
        resp ← Do req;
        match resp with
        | DoError err => ret (None, Some (Errorf_w "failed to send request: " err))
        | DoResponse _ (inl err) =>
          ret (None, Some (Errorf_w "failed to read response: " err))
        | DoResponse StatusCode (inr respBody) =>
          if negb (StatusCode =? 201) then
            ret (None, Some (Errorf_status "request" StatusCode respBody))
          else
            match json_Unmarshal_item respBody with
            | inl err =>
              ret (None, Some (Errorf_w "failed to parse response: " err))
            | inr data => ret (Some (flatten data), None)
            end
        end
      end
    end
  end.

(** ** Convenience queries *)

(** [[]interface{}{a, b, ...}] *)
Definition list_of (l : list GoVal) : GoVal := VSlice (mk_slice l).

(** [map[string]interface{}{"type": typ, "id": id}] *)
Definition entity_ref (typ : string) (id : Z) : GoVal :=
  VMap (<["id" := VInt id]> (<["type" := VString typ]> ∅)).

(** [func (c *Client) GetUserByLogin(login string) (Entity, error)] *)
Definition GetUserByLogin (login : string) : Go (option Entity * option error) :=
  let filters := list_of [list_of [VString "login"; VString "is"; VString login]] in
  '(users, err) ← FindEntities "human_users" filters ["id"; "name"; "login"; "email"];
  match err with
  | Some err => ret (None, Some err)
  | None =>
    match elems users with
    | [] => ret (None, Some (ErrorString ("user not found with login: " +:+ login)))
    | user :: _ => ret (Some user, None)
    end
  end.

(** [func (c *Client) GetUserByName(name string) (Entity, error)] *)
Definition GetUserByName (name : string) : Go (option Entity * option error) :=
  let filters := list_of [list_of [VString "name"; VString "is"; VString name]] in
  '(users, err) ← FindEntities "human_users" filters ["id"; "name"; "login"; "email"];
  match err with
  | Some err => ret (None, Some err)
  | None =>
    match elems users with
    | [] => ret (None, Some (ErrorString ("user not found with name: " +:+ name)))
    | user :: _ => ret (Some user, None)
    end
  end.

(** [if len(fields) == 0 { fields = dflt }] *)
Definition fields_or (fields dflt : list string) : list string :=
  match fields with [] => dflt | _ => fields end.

(** [func (c *Client) GetShots(projectID int, fields []string)] *)
Definition GetShots (projectID : Z) (fields : list string)
  : Go (slice Entity * option error) :=
  let filters :=
    if 0 <? projectID then
      list_of [list_of [VString "project"; VString "is";
                        entity_ref "Project" projectID]]
    else VNil in
  let fields := fields_or fields ["code"; "description"; "sg_status_list"] in
  FindEntities "shots" filters fields.

(** [func (c *Client) GetTasksForShot(shotID int, fields []string)] *)
Definition GetTasksForShot (shotID : Z) (fields : list string)
  : Go (slice Entity * option error) :=
  let filters :=
    list_of [list_of [VString "entity"; VString "is"; entity_ref "Shot" shotID]] in
  let fields := fields_or fields ["content"; "sg_status_list"; "task_assignees"] in
  FindEntities "tasks" filters fields.

(** [func (c *Client) GetTasksForUser(userID int, fields []string)] *)
Definition GetTasksForUser (userID : Z) (fields : list string)
  : Go (slice Entity * option error) :=
  let filters :=
    list_of [list_of [VString "task_assignees"; VString "is";
                      entity_ref "HumanUser" userID]] in
  let fields :=
    fields_or fields ["content"; "entity"; "sg_status_list"; "project"] in
  FindEntities "tasks" filters fields.

(** [func (c *Client) GetUserShotTasks(userID int, shotID int,
    fields []string)] *)
Definition GetUserShotTasks (userID shotID : Z) (fields : list string)
  : Go (slice Entity * option error) :=
  let filters :=
    list_of [list_of [VString "entity"; VString "is"; entity_ref "Shot" shotID];
             list_of [VString "task_assignees"; VString "is";
                      entity_ref "HumanUser" userID]] in
  let fields := fields_or fields ["content"; "sg_status_list"; "task_assignees"] in
  FindEntities "tasks" filters fields.

(** [int(f)] on a [float64]: the fraction is dropped (rounding towards
    zero); what a value outside [int] gives is left to the runtime. *)
Definition int_of_float64 (f : float64) : Z :=
  match f with
  | S754_zero _ => 0
  | S754_finite s m e =>
    let z := Z.shiftl (Z.pos m) e in
    let z := if s then - z else z in
    if (- 2 ^ 63 <=? z) && (z <? 2 ^ 63) then z
    else int_of_float64_overflow f
  | _ => int_of_float64_overflow f
  end.

(** The body of the loop over the tasks in [GetShotsForUser]; [shotIDs] is
    the [map[int]bool], all of whose values are [true]. *)
Definition add_shot (shotIDs : gset Z) (task : Entity) : gset Z :=
  match task !! "entity" with
  | Some (VMap entity) =>
    let entity :=
      match entity !! "data" with
      | Some (VMap data) => data
      | _ => entity
      end in
    match entity !! "type" with
    | Some (VString entityType) =>
      if String.eqb entityType "Shot" then
        match entity !! "id" with
        | Some (VFloat id) => {[int_of_float64 id]} ∪ shotIDs
        | Some (VInt id) => {[id]} ∪ shotIDs
        | _ => shotIDs
        end
      else shotIDs
    | _ => shotIDs
    end
  | _ => shotIDs
  end.

(** [func (c *Client) GetShotsForUser(userID int, fields []string)] *)
Definition GetShotsForUser (userID : Z) (fields : list string)
  : Go (slice Entity * option error) :=
  '(tasks, err) ← GetTasksForUser userID ["entity"];
  match err with
  | Some err => ret (nil_slice, Some err)
  | None =>
    let shotIDs : gset Z := foldl add_shot ∅ (elems tasks) in
    if decide (size shotIDs = 0%nat) then ret (mk_slice [], None)
    else
      let ids := range_keys shotIDs in
      let filters :=
        list_of [list_of [VString "id"; VString "in"; VInts (mk_slice ids)]] in
      let fields :=
        fields_or fields ["code"; "description"; "sg_status_list"; "project"] in
      FindEntities "shots" filters fields
  end.

End Package.

(** ** Vocabulary of the statements *)

Section Vocabulary.
Context `{rt : Runtime}.

(** The request [authenticate] sends. *)
Definition tokenRequest (c : Client) : Request :=
  Header_Set "Accept" "application/json"
    (Header_Set "Content-Type" "application/x-www-form-urlencoded"
       {| Method := "POST";
          URL := baseURL c +:+ "/api/" +:+ apiVersion c +:+ "/auth/access_token";
          Header := ∅;
          Body := Some (form (scriptName c) (scriptKey c)) |}).

(** [authenticate] succeeds from [c] and [w] with the decoded answer [tr]:
    the request is built, the endpoint answers 200 with a body that is read
    and decodes to [tr]. *)
Definition token_granted (c : Client) (w : World) (tr : TokenResponse) : Prop :=
  url_Parse_error (URL (tokenRequest c)) = None ∧
  ∃ body, httpClient c (wire w) (tokenRequest c) = DoResponse 200 (inr body) ∧
          json_Unmarshal_token body = inr tr.

Definition entered (w : World) : World :=
  {| ticks := ticks w; wire := wire w; exchanges := S (exchanges w) |}.

Definition sent (req : Request) (w : World) : World :=
  {| ticks := ticks w; wire := wire w ++ [req]; exchanges := exchanges w |}.

Definition ticked (w : World) : World :=
  {| ticks := S (ticks w); wire := wire w; exchanges := exchanges w |}.

Definition with_token (tr : TokenResponse) (now : Time) (c : Client) : Client :=
  {| baseURL := baseURL c; httpClient := httpClient c;
     apiVersion := apiVersion c;
     accessToken := AccessToken tr; refreshToken := RefreshToken tr;
     tokenExpiry := Time_Add now (Duration_mul (ExpiresIn tr) Second);
     scriptName := scriptName c; scriptKey := scriptKey c |}.

(** The requests of the three entity operations, for the bearer [token]. *)
Definition searchRequest (c : Client) (token entityType bodyJSON : string)
    (fields : list string) : Request :=
  Header_Set "Accept" "application/json"
    (Header_Set "Content-Type" "application/vnd+shotgun.api3_array+json"
       (Header_Set "Authorization" ("Bearer " +:+ token)
          {| Method := "POST";
             URL := with_fields (baseURL c +:+ "/api/" +:+ apiVersion c +:+
                      "/entity/" +:+ entityType +:+ "/_search") fields;
             Header := ∅;
             Body := Some bodyJSON |})).

Definition getRequest (c : Client) (token entityType : string) (id : Z)
    (fields : list string) : Request :=
  Header_Set "Accept" "application/json"
    (Header_Set "Authorization" ("Bearer " +:+ token)
       {| Method := "GET";
          URL := with_fields (baseURL c +:+ "/api/" +:+ apiVersion c +:+
                   "/entity/" +:+ entityType +:+ "/" +:+ pretty id) fields;
          Header := ∅;
          Body := None |}).

Definition createRequest (c : Client) (token entityType bodyJSON : string)
  : Request :=
  Header_Set "Accept" "application/json"
    (Header_Set "Content-Type" "application/json"
       (Header_Set "Authorization" ("Bearer " +:+ token)
          {| Method := "POST";
             URL := baseURL c +:+ "/api/" +:+ apiVersion c +:+ "/entity/"
                    +:+ entityType;
             Header := ∅;
             Body := Some bodyJSON |})).

(** What an entity operation makes of the answer to its request: [expected]
    is the status it accepts, [decode] the decoder of the body, [zero] the
    nil result that goes with an error. *)
Definition settle {A R} (expected : Z) (decode : string → error + A)
    (zero : R) (ok : A → R) (resp : DoResult) : R * option error :=
  match resp with
  | DoError err => (zero, Some (Errorf_w "failed to send request: " err))
  | DoResponse _ (inl err) =>
    (zero, Some (Errorf_w "failed to read response: " err))
  | DoResponse StatusCode (inr respBody) =>
    if negb (StatusCode =? expected) then
      (zero, Some (Errorf_status "request" StatusCode respBody))
    else
      match decode respBody with
      | inl err => (zero, Some (Errorf_w "failed to parse response: " err))
      | inr data => (ok data, None)
      end
  end.

(** The body [FindEntities] marshals. *)
Definition searchBody (filters : GoVal) : GoVal :=
  VMap {[ "filters" := if is_nil filters then VSlice (mk_slice []) else filters ]}.

(** The body [CreateEntity] marshals. *)
Definition createBody (data : option (gmap string GoVal)) : error + string :=
  from_option (λ m, json_Marshal (VMap m)) (inr "null") data.

(** *** Telling failures apart

    The three failures of an entity request, and how a caller reads them off
    the returned error: by the way [err.Error()] begins, here and one
    [errors.Unwrap] below. *)
Inductive FailureKind : Type :=
| TransportFailure
| DecodeFailure
| Rejection.

(** [strings.HasPrefix(s, prefix)] *)
Fixpoint HasPrefix (s prefix : string) {struct prefix} : bool :=
  match prefix, s with
  | EmptyString, _ => true
  | String a prefix, String b s => Ascii.eqb a b && HasPrefix s prefix
  | String _ _, EmptyString => false
  end.

Definition messageKind (msg : string) : option FailureKind :=
  if HasPrefix msg "failed to send request: " then Some TransportFailure
  else if HasPrefix msg "failed to parse response: "
          || HasPrefix msg "failed to parse token response: "
  then Some DecodeFailure
  else if HasPrefix msg "request failed with status "
          || HasPrefix msg "authentication failed with status "
  then Some Rejection
  else None.

(** The failure of the token exchange reaches the caller of an entity
    operation wrapped once; [errors.Unwrap] gives it back. *)
Definition failureKind (err : error) : option FailureKind :=
  if HasPrefix (Error err) "failed to get access token: " then
    match Unwrap err with
    | Some inner => messageKind (Error inner)
    | None => None
    end
  else messageKind (Error err).

(** Which of the three failures the answer [resp] to an entity request is:
    it could not be sent, it was answered with another status than
    [expected], or its body does not decode. *)
Definition answerFailure {A} (expected : Z) (decode : string → error + A)
    (resp : DoResult) : option FailureKind :=
  match resp with
  | DoError _ => Some TransportFailure
  | DoResponse _ (inl _) => None
  | DoResponse StatusCode (inr respBody) =>
    if negb (StatusCode =? expected) then Some Rejection
    else match decode respBody with
         | inl _ => Some DecodeFailure
         | inr _ => None
         end
  end.

(** *** The shots of a user's tasks

    The value a task relates to: the object under [entity], or the object
    one level below it under [data] when there is one. *)
Definition unwrapped (entity : gmap string GoVal) : gmap string GoVal :=
  match entity !! "data" with
  | Some (VMap data) => data
  | _ => entity
  end.

(** [obj] names the shot [z]: its type is [Shot] and its id is the number
    [z], held as a [float64] or as an [int]. *)
Definition names_shot (obj : gmap string GoVal) (z : Z) : Prop :=
  obj !! "type" = Some (VString "Shot") ∧
  ((∃ f, obj !! "id" = Some (VFloat f) ∧ z = int_of_float64 f) ∨
   obj !! "id" = Some (VInt z)).

(** The task relates to the shot [z], in either shape. *)
Definition relates_shot (task : Entity) (z : Z) : Prop :=
  ∃ entity, task !! "entity" = Some (VMap entity) ∧
            names_shot (unwrapped entity) z.

(** The filter of the second search of [GetShotsForUser]. *)
Definition shotsFilter (ids : list Z) : GoVal :=
  list_of [list_of [VString "id"; VString "in"; VInts (mk_slice ids)]].

(** The client [NewClient] builds before it authenticates. *)
Definition freshClient (config : Config) : Client :=
  {| baseURL := SiteURL config;
     apiVersion := if String.eqb (APIVersion config) "" then defaultAPIVersion
                   else APIVersion config;
     httpClient := match HTTPClient_ config with
                   | None => defaultHTTPClient
                   | Some h => h
                   end;
     accessToken := ""; refreshToken := ""; tokenExpiry := 0;
     scriptName := ScriptName config; scriptKey := ScriptKey config |}.

End Vocabulary.

(** ** Scenarios

    Concrete runtimes, on which the statements are run: a site at
    [https://flow.test] whose token endpoint grants [tr], whose [tasks] search
    answers [tasks] and whose other entity requests answer [shots]; bodies
    are named rather than spelled. *)

Definition dquote : string := String "034"%char "".

Definition site : string := "https://flow.test".

Definition site_api : string := site +:+ "/api/v1.1".

(** The site: it grants tokens, answers the [tasks] and [shots] searches,
    returns and creates shot 7, cannot be reached for the entity type
    [unreachable], answers a page that is no JSON for [garbled], and rejects
    the rest. *)
Definition site_http : HTTPClient := λ _ req,
  if HasPrefix (URL req) (site_api +:+ "/auth/access_token") then
    DoResponse 200 (inr "token.json")
  else if HasPrefix (URL req) (site_api +:+ "/entity/tasks/_search") then
    DoResponse 200 (inr "tasks.json")
  else if HasPrefix (URL req) (site_api +:+ "/entity/shots/_search") then
    DoResponse 200 (inr "shots.json")
  else if HasPrefix (URL req) (site_api +:+ "/entity/unreachable") then
    DoError (LibError "dial tcp: connection refused")
  else if HasPrefix (URL req) (site_api +:+ "/entity/garbled") then
    DoResponse 200 (inr "<html>")
  else if String.eqb (URL req) (site_api +:+ "/entity/shots/7") then
    DoResponse 200 (inr "shot.json")
  else if String.eqb (URL req) (site_api +:+ "/entity/shots") then
    DoResponse 201 (inr "shot.json")
  else
    DoResponse 404 (inr "not found").

(** The runtime of the site at clock [clk], where the granted token is [tr],
    the tasks found are [tasks] and the shots found are [shots], the first
    of which is shot 7. *)
Definition scenario (clk : nat → Time) (tr : TokenResponse)
    (tasks shots : list Item) : Runtime :=
  {| clock := clk;
     defaultHTTPClient := site_http;
     url_Parse_error := λ _, None;
     url_QueryEscape := λ s, s;
     json_string := λ s, dquote +:+ s +:+ dquote;
     json_float64 := λ _, inl (LibError "json: unsupported value");
     json_Unmarshal_token := λ body,
       if String.eqb body "token.json" then inr tr
       else inl (LibError "unexpected end of JSON input");
     json_Unmarshal_items := λ body,
       if String.eqb body "tasks.json" then inr tasks
       else if String.eqb body "shots.json" then inr shots
       else inl (LibError "invalid character '<' looking for beginning of value");
     json_Unmarshal_item := λ body,
       match shots with
       | shot :: _ =>
         if String.eqb body "shot.json" then inr shot
         else inl (LibError "unexpected end of JSON input")
       | [] => inl (LibError "unexpected end of JSON input")
       end;
     int_of_float64_overflow := λ _, - 2 ^ 63;
     range_keys := elements |}.

Definition site_config : Config :=
  {| SiteURL := site; ScriptName := "pipeline"; ScriptKey := "s3cret";
     APIVersion := ""; HTTPClient_ := None |}.

Definition hour_token : TokenResponse :=
  {| TokenType := "Bearer"; AccessToken := "tok-1"; ExpiresIn := 3600;
     RefreshToken := "ref-1" |}.

Definition aeon_token : TokenResponse :=
  {| TokenType := "Bearer"; AccessToken := "tok-1"; ExpiresIn := 9223372037;
     RefreshToken := "ref-1" |}.

Definition spent_token : TokenResponse :=
  {| TokenType := "Bearer"; AccessToken := "tok-1"; ExpiresIn := 0;
     RefreshToken := "ref-1" |}.

(** A clock that advances one millisecond per reading. *)
Definition ms_clock (k : nat) : Time := Z.of_nat k * 1000000.

Definition world0 : World := {| ticks := 0; wire := []; exchanges := 0 |}.

Definition site_rt : Runtime := scenario ms_clock hour_token [] [].

Definition spent_rt : Runtime := scenario ms_clock spent_token [] [].

(** The [float64] of a small whole number. *)
Definition whole (n : positive) : float64 := S754_finite false n 0.

(** A shot whose attributes and relationships both have the key [a]. *)
Definition clash_shot : Item :=
  {| ID := 7; Type_ := "Shot";
     Attributes := {[ "a" := VFloat (whole 1); "code" := VString "sh010" ]};
     Relationships := {[ "a" := VFloat (whole 2) ]} |}.

Definition clash_rt : Runtime := scenario ms_clock hour_token [] [clash_shot].

(** A shot whose attributes have a key [id] and whose relationships have a
    key [type]. *)
Definition masked_shot : Item :=
  {| ID := 7; Type_ := "Shot";
     Attributes := {[ "id" := VFloat (whole 99); "type" := VString "Asset" ]};
     Relationships := {[ "type" := VString "Sequence" ]} |}.

Definition masked_rt : Runtime := scenario ms_clock hour_token [] [masked_shot].

(** A task that relates to [related] under [entity]. *)
Definition task_of (id : Z) (related : GoVal) : Item :=
  {| ID := id; Type_ := "Task"; Attributes := ∅;
     Relationships := {[ "entity" := related ]} |}.

Definition obj (typ : string) (id : GoVal) : GoVal :=
  VMap {[ "type" := VString typ; "id" := id ]}.

(** The tasks of user 42: shot 7 directly, shot 7 again and shot 12 (held
    as 12.5) under [data], an asset, a task with no entity, one whose entity
    is a string, one whose shot has a string for id. *)
Definition user_tasks : list Item :=
  [ task_of 101 (obj "Shot" (VFloat (whole 7)));
    task_of 102 (VMap {[ "data" := obj "Shot" (VFloat (whole 7)) ]});
    task_of 103 (VMap {[ "data" := obj "Shot" (VFloat (S754_finite false 25 (-1))) ]});
    task_of 104 (obj "Asset" (VFloat (whole 3)));
    {| ID := 105; Type_ := "Task"; Attributes := ∅; Relationships := ∅ |};
    task_of 106 (VString "Shot");
    task_of 107 (obj "Shot" (VString "8")) ].

Definition user_rt : Runtime :=
  scenario ms_clock hour_token user_tasks [clash_shot].

(** A client whose transport reaches nothing, and its runtime. *)
Definition offline_http : HTTPClient := λ _ _,
  DoError (LibError "dial tcp: connection refused").

Definition offline_client : Client :=
  {| baseURL := site; httpClient := offline_http;
     apiVersion := defaultAPIVersion;
     accessToken := "tok-0"; refreshToken := "ref-0"; tokenExpiry := 0;
     scriptName := "pipeline"; scriptKey := "s3cret" |}.

Definition offline_rt : Runtime := scenario ms_clock hour_token [] [].

(** A client of the site whose token expires at [expiry]. *)
Definition site_client (expiry : Time) : Client :=
  {| baseURL := site; httpClient := site_http; apiVersion := defaultAPIVersion;
     accessToken := "tok-0"; refreshToken := "ref-0"; tokenExpiry := expiry;
     scriptName := "pipeline"; scriptKey := "s3cret" |}.

(** ** Construction from the environment

    The process environment is a map from names to values.  What
    [godotenv.Load] makes of it is left open: [godotenv_Load file env] is the
    environment after loading [file], whatever the outcome, since the
    package drops the error. *)

Abbreviation Environ := (gmap string string).

(** [func getEnv(key string) string], that is [os.Getenv]: the value, or the
    empty string for a name that is not set. *)
Definition getEnv (env : Environ) (key : string) : string :=
  default "" (env !! key).

Section FromEnv.
Context `{rt : Runtime}.
Variable godotenv_Load : string → Environ → Environ.

(** [func tryLoadEnv()]; [godotenv.Load()] without a name loads [.env]. *)
Definition tryLoadEnv (env : Environ) : Environ :=
  let env := godotenv_Load ".env" env in
  let env := godotenv_Load "../.env" env in
  let env := godotenv_Load "../../.env" env in
  env.

(** [func NewClientFromEnv()], returning a [*Client] and an [error]; the
    environment it leaves is returned too. *)
Definition NewClientFromEnv (env : Environ) (w : World)
  : option Client * option error * World * Environ :=
  let env := tryLoadEnv env in
  let siteURL := getEnv env "FLOW_SITE_URL" in
  let scriptName := getEnv env "FLOW_SCRIPT_NAME" in
  let scriptKey := getEnv env "FLOW_SCRIPT_KEY" in
  if String.eqb siteURL "" then
    (None,
     Some (ErrorString "FLOW_SITE_URL environment variable is required"),
     w, env)
  else if String.eqb scriptName "" then
    (None,
     Some (ErrorString "FLOW_SCRIPT_NAME environment variable is required"),
     w, env)
  else if String.eqb scriptKey "" then
    (None,
     Some (ErrorString "FLOW_SCRIPT_KEY environment variable is required"),
     w, env)
  else
    (NewClient {| SiteURL := siteURL; ScriptName := scriptName;
                  ScriptKey := scriptKey; APIVersion := "";
                  HTTPClient_ := None |} w,
     env).

End FromEnv.

(** ** Further vocabulary *)

(** The long-lived part of a client: where it talks to and as whom. *)
Definition same_settings (c c' : Client) : Prop :=
  baseURL c' = baseURL c ∧ apiVersion c' = apiVersion c ∧
  httpClient c' = httpClient c ∧
  scriptName c' = scriptName c ∧ scriptKey c' = scriptKey c.

(** From [w] to [w'] at most [requests] requests were sent, after those
    already on the wire, and [authenticate] was entered at most [refreshes]
    times. *)
Definition within (requests refreshes : nat) (w w' : World) : Prop :=
  ∃ reqs, wire w' = (wire w ++ reqs)%list ∧
          (length reqs ≤ requests)%nat ∧
          (exchanges w ≤ exchanges w' ≤ exchanges w + refreshes)%nat.

(** A run of a method from [c] and [w] keeps the settings and stays within
    the budget. *)
Definition behaves {A} (requests refreshes : nat) (c : Client) (w : World)
    (run : A * Client * World) : Prop :=
  same_settings c run.1.2 ∧ within requests refreshes w run.2.

(** The library's error behind the answer [resp] to a request, if the
    answer failed in a library: in sending, in reading, or in decoding a
    body that came with the [expected] status. *)
Definition libraryError {A} (expected : Z) (decode : string → error + A)
    (resp : DoResult) : option error :=
  match resp with
  | DoError err => Some err
  | DoResponse _ (inl err) => Some err
  | DoResponse StatusCode (inr respBody) =>
    if negb (StatusCode =? expected) then None
    else match decode respBody with
         | inl err => Some err
         | inr _ => None
         end
  end.

Section QueryTexts.
Context `{rt : Runtime}.

(** The JSON of a reference to the entity [id] of type [typ], and of a
    filter with one or two conditions. *)
Definition ref_json (typ : string) (id : Z) : string :=
  json_object [("id", pretty id); ("type", json_string typ)].

Definition condition_json (field value : string) : string :=
  json_array [json_string field; json_string "is"; value].

Definition filters_json (conditions : list string) : string :=
  json_object [("filters", json_array conditions)].

End QueryTexts.

(** [errors.Unwrap] taken [n] times. *)
Fixpoint Unwrap_n (n : nat) (e : error) : option error :=
  match n with
  | O => Some e
  | S n => Unwrap e ≫= Unwrap_n n
  end.

(** A [.env] loader in the manner of [godotenv]: the names of [file_vars]
    that the environment lacks are set, the others are left alone. *)
Definition keep_loader (file_vars : Environ) : string → Environ → Environ :=
  λ file env, if String.eqb file ".env" then env ∪ file_vars else env.

(** ** The model at work *)

Example Duration_mul_hour : Duration_mul 3600 Second = 3600000000000.
Proof. reflexivity. Qed.

Example Duration_mul_wraps :
  Duration_mul 9223372037 Second = -9223372036709551616.
Proof. reflexivity. Qed.

Example int_of_float64_drops_fraction :
  int_of_float64 (rt := site_rt) (S754_finite false 25 (-1)) = 12 ∧
  int_of_float64 (rt := site_rt) (S754_finite true 25 (-1)) = -12 ∧
  int_of_float64 (rt := site_rt) (whole 7) = 7.
Proof. by vm_compute. Qed.

Example json_Marshal_no_filters :
  json_Marshal (rt := site_rt) (searchBody VNil)
    = inr ("{" +:+ dquote +:+ "filters" +:+ dquote +:+ ":[]}").
Proof. by vm_compute. Qed.

Example json_Marshal_nil_slice :
  json_Marshal (rt := site_rt) (searchBody (VSlice nil_slice))
    = inr ("{" +:+ dquote +:+ "filters" +:+ dquote +:+ ":null}").
Proof. by vm_compute. Qed.

Example json_Marshal_sorts_keys :
  json_Marshal (rt := site_rt) (entity_ref "Shot" 5)
    = inr ("{" +:+ dquote +:+ "id" +:+ dquote +:+ ":5,"
           +:+ dquote +:+ "type" +:+ dquote +:+ ":"
           +:+ dquote +:+ "Shot" +:+ dquote +:+ "}").
Proof. by vm_compute. Qed.

Example json_Marshal_ids :
  json_Marshal (rt := site_rt) (shotsFilter [7; 12])
    = inr ("[[" +:+ dquote +:+ "id" +:+ dquote +:+ ","
           +:+ dquote +:+ "in" +:+ dquote +:+ ",[7,12]]]").
Proof. by vm_compute. Qed.

Example add_shot_both_shapes :
  foldl (add_shot (rt := site_rt)) ∅ (flatten <$> user_tasks)
    = ({[7; 12]} : gset Z).
Proof. by vm_compute. Qed.

Example failureKind_not_found :
  failureKind (ErrorString "user not found with login: ada") = None.
Proof. reflexivity. Qed.

(** ** Token management *)

Section TokenManagement.
Context `{rt : Runtime}.

(** [authenticate], path by path. *)
Lemma authenticate_paths c w :
  authenticate c w =
  match url_Parse_error (URL (tokenRequest c)) with
  | Some err => (Some (Errorf_w "failed to create request: " err), c, entered w)
  | None =>
    let w1 := sent (tokenRequest c) (entered w) in
    match httpClient c (wire w) (tokenRequest c) with
    | DoError err => (Some (Errorf_w "failed to send request: " err), c, w1)
    | DoResponse _ (inl err) =>
      (Some (Errorf_w "failed to read response: " err), c, w1)
    | DoResponse StatusCode (inr body) =>
      if negb (StatusCode =? 200) then
        (Some (Errorf_status "authentication" StatusCode body), c, w1)
      else
        match json_Unmarshal_token body with
        | inl err =>
          (Some (Errorf_w "failed to parse token response: " err), c, w1)
        | inr tr => (None, with_token tr (clock (ticks w)) c, ticked w1)
        end
    end
  end.
Proof.
  unfold authenticate, tokenRequest, mbind, mret, Go_bind, Go_ret, self,
    enter_authenticate, http_NewRequest, Do. simpl.
  destruct (url_Parse_error _); [done|]. simpl.
  destruct (httpClient c _ _) as [e|st [e|body]]; [done|done|].
  destruct (negb _); [done|].
  destruct (json_Unmarshal_token body); done.
Qed.

Ltac authenticate_cases c w :=
  rewrite (authenticate_paths c w);
  destruct (url_Parse_error (URL (tokenRequest c))) eqn:?;
  [|destruct (httpClient c (wire w) (tokenRequest c)) as [?|? [?|?]] eqn:?;
    [| |destruct (negb _) eqn:?;
        [|destruct (json_Unmarshal_token _) eqn:?]]];
  simpl.

Lemma authenticate_exchanges c w :
  exchanges (authenticate c w).2 = S (exchanges w).
Proof. authenticate_cases c w; done. Qed.

Lemma authenticate_failure c w err c' w' :
  authenticate c w = (Some err, c', w') → c' = c.
Proof. authenticate_cases c w; congruence. Qed.

Lemma authenticate_success c w c' w' :
  authenticate c w = (None, c', w') →
  ∃ tr, token_granted c w tr ∧
        c' = with_token tr (clock (ticks w)) c ∧
        w' = ticked (sent (tokenRequest c) (entered w)).
Proof.
  unfold token_granted. authenticate_cases c w; try congruence.
  intros [= <- <-]. eexists. split_and!; try done.
  match goal with Hs : negb _ = false |- _ =>
    apply negb_false_iff, Z.eqb_eq in Hs; subst end.
  eauto.
Qed.

Lemma token_granted_authenticate c w tr :
  token_granted c w tr →
  authenticate c w =
    (None, with_token tr (clock (ticks w)) c,
     ticked (sent (tokenRequest c) (entered w))).
Proof.
  intros [Hu (body & Hd & Hj)].
  rewrite authenticate_paths, Hu, Hd. simpl. by rewrite Hj.
Qed.

Lemma Duration_mul_exact (n : Z) :
  -9223372036 ≤ n ≤ 9223372036 → Duration_mul n Second = n * 1000000000.
Proof.
  intros Hn. unfold Duration_mul, wrap64, Second.
  rewrite Z.mod_small; lia.
Qed.

Lemma GetAccessToken_paths c w :
  GetAccessToken c w =
  if tokenExpiry c <? clock (ticks w) + 60 * 1000000000 then
    let '(err, c', w') := authenticate c (ticked w) in
    ((match err with Some _ => "" | None => accessToken c' end, err), c', w')
  else ((accessToken c, None), c, ticked w).
Proof.
  unfold GetAccessToken, mbind, mret, Go_bind, Go_ret, self, time_Now,
    Time_After, Time_Add. simpl.
  change (Duration_mul 60 Second) with 60000000000.
  destruct (_ <? _); [|done].
  unfold ticked. destruct (authenticate c _) as [[[e|] c'] w']; done.
Qed.

Lemma NewClient_paths config w :
  SiteURL config ≠ "" → ScriptName config ≠ "" → ScriptKey config ≠ "" →
  NewClient config w =
  let '(err, c', w') := authenticate (freshClient config) w in
  match err with
  | Some err =>
    (None, Some (Errorf_w "initial authentication failed: " err), w')
  | None => (Some c', None, w')
  end.
Proof.
  intros H1%String.eqb_neq H2%String.eqb_neq H3%String.eqb_neq.
  unfold NewClient. by rewrite H1, H2, H3.
Qed.

Lemma IsAuthenticated_spec c w :
  (IsAuthenticated c w).1.1 = true ↔
  accessToken c ≠ "" ∧ clock (ticks w) < tokenExpiry c.
Proof.
  unfold IsAuthenticated, mbind, mret, Go_bind, Go_ret, self, time_Now,
    Time_Before. simpl.
  destruct (String.eqb_spec (accessToken c) ""); simpl.
  - split; [done|]. by intros [].
  - rewrite Z.ltb_lt. split; [done|]. by intros [].
Qed.

(** C1, as the code has it.  [GetAccessToken] reads the clock once, as [now].
    When [now + 60s] is strictly after [tokenExpiry] it calls [authenticate]
    exactly once and returns that call's outcome: the new token, or the
    empty string with the error.  When [now + 60s] is at or before
    [tokenExpiry], exact equality included, it performs no exchange and
    returns the stored [accessToken], the client unchanged. *)
Theorem GetAccessToken_margin c w :
  (tokenExpiry c < clock (ticks w) + 60 * 1000000000 →
   ∃ err c' w',
     authenticate c (ticked w) = (err, c', w') ∧
     GetAccessToken c w =
       ((match err with Some _ => "" | None => accessToken c' end, err),
        c', w') ∧
     exchanges w' = S (exchanges w)) ∧
  (clock (ticks w) + 60 * 1000000000 ≤ tokenExpiry c →
   GetAccessToken c w = ((accessToken c, None), c, ticked w) ∧
   exchanges (ticked w) = exchanges w).
Proof.
  rewrite GetAccessToken_paths. split; intros Hm.
  - apply Z.ltb_lt in Hm as ->.
    pose proof (authenticate_exchanges c (ticked w)) as He.
    destruct (authenticate c (ticked w)) as [[err c'] w'].
    by exists err, c', w'.
  - apply Z.ltb_ge in Hm as ->. done.
Qed.

(** C3, as the code has it.  When [authenticate] returns an error the
    client is unchanged, so none of [accessToken], [refreshToken] and
    [tokenExpiry] is modified.  When it succeeds, the endpoint answered 200
    with a body that decodes to some [tr], and the three fields are replaced
    by [tr]'s tokens and by an expiry which is the instant read after the
    answer plus [expires_in] seconds, whenever that many seconds fit a
    [time.Duration] (at most 9223372036 in absolute value). *)
Theorem authenticate_atomic c w :
  ∃ err c' w',
    authenticate c w = (err, c', w') ∧
    match err with
    | Some _ =>
      accessToken c' = accessToken c ∧ refreshToken c' = refreshToken c ∧
      tokenExpiry c' = tokenExpiry c
    | None =>
      ∃ tr, token_granted c w tr ∧
            accessToken c' = AccessToken tr ∧
            refreshToken c' = RefreshToken tr ∧
            (-9223372036 ≤ ExpiresIn tr ≤ 9223372036 →
             tokenExpiry c' = clock (ticks w) + ExpiresIn tr * 1000000000)
    end.
Proof.
  destruct (authenticate c w) as [[[e|] c'] w'] eqn:Ha;
    eexists _, _, _; (split; [done|]).
  - by rewrite (authenticate_failure _ _ _ _ _ Ha).
  - apply authenticate_success in Ha as (tr & Hg & -> & _).
    exists tr. split_and!; try done.
    intros Hn. simpl. unfold Time_Add. by rewrite Duration_mul_exact.
Qed.

(** C6, as the code has it.  With the three credentials present and a token
    endpoint that answers 200 with a body decoding to [tr], [NewClient]
    enters [authenticate] exactly once and returns a client holding [tr]'s
    token; [IsAuthenticated] called next returns true exactly when that
    access token is not empty and the instant it reads is before the expiry.
    When the one exchange fails, [NewClient] returns the wrapped error and no
    client. *)
Theorem NewClient_authenticates config w :
  SiteURL config ≠ "" → ScriptName config ≠ "" → ScriptKey config ≠ "" →
  (∀ tr, token_granted (freshClient config) w tr →
     ∃ client w',
       NewClient config w = (Some client, None, w') ∧
       exchanges w' = S (exchanges w) ∧
       accessToken client = AccessToken tr ∧
       ((IsAuthenticated client w').1.1 = true ↔
        AccessToken tr ≠ "" ∧
        clock (S (ticks w)) <
          clock (ticks w) + Duration_mul (ExpiresIn tr) Second)) ∧
  (∀ err c' w',
     authenticate (freshClient config) w = (Some err, c', w') →
     NewClient config w =
       (None, Some (Errorf_w "initial authentication failed: " err), w') ∧
     exchanges w' = S (exchanges w)).
Proof.
  intros H1 H2 H3. rewrite NewClient_paths by done. split.
  - intros tr Hg. rewrite (token_granted_authenticate _ _ _ Hg).
    eexists _, _. split_and!; try done.
    by rewrite IsAuthenticated_spec.
  - intros err c' w' Ha.
    pose proof (authenticate_exchanges (freshClient config) w) as He.
    rewrite Ha in *. done.
Qed.

End TokenManagement.

(** *** The statements on the site scenario *)

Lemma GetAccessToken_margin_witness :
  (∃ err c' w',
     authenticate (rt := site_rt) (site_client 0) (ticked world0)
       = (err, c', w') ∧
     GetAccessToken (rt := site_rt) (site_client 0) world0 =
       ((match err with Some _ => "" | None => accessToken c' end, err),
        c', w') ∧
     exchanges w' = 1%nat) ∧
  GetAccessToken (rt := site_rt) (site_client 60000000000) world0 =
    (("tok-0", None), site_client 60000000000, ticked world0).
Proof.
  split.
  - apply (GetAccessToken_margin (rt := site_rt) (site_client 0) world0).
    by vm_compute.
  - apply (GetAccessToken_margin (rt := site_rt)
             (site_client 60000000000) world0).
    by vm_compute.
Defined.

(** C1 as stated fails at exact equality: with [now + 60s = tokenExpiry] no
    exchange is performed. *)
Lemma GetAccessToken_equality_no_exchange :
  ¬ (∀ (rt : Runtime) c w,
       tokenExpiry c ≤ clock (ticks w) + 60 * 1000000000 →
       exchanges (GetAccessToken c w).2 = S (exchanges w)).
Proof.
  intros Hc.
  specialize (Hc (scenario ms_clock hour_token [] [])
                (site_client 60000000000) world0).
  vm_compute in Hc. discriminate Hc. by intros.
Qed.

Lemma site_token_granted clk tr tasks shots c w :
  baseURL c = site → apiVersion c = defaultAPIVersion →
  httpClient c = site_http →
  token_granted (rt := scenario clk tr tasks shots) c w tr.
Proof.
  intros Hb Hv Hh. split; [done|]. exists "token.json".
  unfold tokenRequest. rewrite Hb, Hv, Hh. done.
Qed.

Lemma authenticate_atomic_witness :
  ∃ c' w',
    authenticate (rt := site_rt) (site_client 0) world0 = (None, c', w') ∧
    accessToken c' = "tok-1" ∧ refreshToken c' = "ref-1" ∧
    tokenExpiry c' = 3600 * 1000000000.
Proof.
  destruct (authenticate_atomic (rt := site_rt) (site_client 0) world0)
    as (err & c' & w' & Ha & Hs).
  assert (err = None) as ->.
  { pose proof (token_granted_authenticate (site_client 0) world0 hour_token
                  (site_token_granted ms_clock hour_token [] []
                     (site_client 0) world0 eq_refl eq_refl eq_refl)) as Hg.
    unfold site_rt in Ha. rewrite Hg in Ha. by injection Ha. }
  destruct Hs as (tr & Hg & Hat & Hrt & Hexp).
  assert (tr = hour_token) as ->.
  { destruct Hg as (_ & body & Hd & Hj). vm_compute in Hd.
    injection Hd as <-. vm_compute in Hj. by injection Hj as <-. }
  exists c', w'. split_and!; try done.
  rewrite Hexp; [done|]. by vm_compute.
Defined.

(** C3 as stated fails where [expires_in] seconds do not fit a
    [time.Duration]: the product wraps around. *)
Lemma authenticate_expiry_wraps :
  ¬ (∀ (rt : Runtime) c w c' w' tr,
       token_granted c w tr →
       authenticate c w = (None, c', w') →
       tokenExpiry c' = clock (ticks w) + ExpiresIn tr * 1000000000).
Proof.
  intros Hc.
  pose proof (site_token_granted ms_clock aeon_token [] []
                (site_client 0) world0 eq_refl eq_refl eq_refl) as Hg.
  specialize (Hc (scenario ms_clock aeon_token [] []) (site_client 0) world0
                _ _ aeon_token Hg (token_granted_authenticate _ _ _ Hg)).
  vm_compute in Hc. discriminate Hc.
Qed.

Lemma NewClient_authenticates_witness :
  ∃ client w',
    NewClient (rt := site_rt) site_config world0 = (Some client, None, w') ∧
    exchanges w' = 1%nat ∧
    accessToken client = "tok-1" ∧
    (IsAuthenticated (rt := site_rt) client w').1.1 = true.
Proof.
  destruct (NewClient_authenticates (rt := site_rt) site_config world0)
    as [Hok _]; [done..|].
  destruct (Hok hour_token) as (client & w' & Hn & He & Ht & Hi).
  { by apply site_token_granted. }
  exists client, w'. split_and!; try done.
  apply Hi. by vm_compute.
Defined.

(** C6 as stated fails for a token that is granted with no lifetime left:
    the client is returned and [IsAuthenticated] is false. *)
Lemma NewClient_not_authenticated :
  ¬ (∀ (rt : Runtime) config w client w' tr,
       token_granted (freshClient config) w tr →
       NewClient config w = (Some client, None, w') →
       (IsAuthenticated client w').1.1 = true).
Proof.
  intros Hc.
  pose proof (site_token_granted ms_clock spent_token [] []
                (freshClient (rt := scenario ms_clock spent_token [] []) site_config)
                world0 eq_refl eq_refl eq_refl) as Hg.
  specialize (Hc (scenario ms_clock spent_token [] []) site_config world0
                _ _ spent_token Hg eq_refl).
  vm_compute in Hc. discriminate Hc.
Qed.

(** ** Entity operations, path by path *)

Section EntityOperations.
Context `{rt : Runtime}.

Lemma merge_into_union (m : gmap string GoVal) (entity : Entity) :
  merge_into m entity = m ∪ entity.
Proof.
  unfold merge_into.
  apply (map_fold_weak_ind (λ r m, r = m ∪ entity)).
  - by rewrite (left_id_L ∅ (∪)).
  - intros k v m' r _ ->. by rewrite insert_union_l.
Qed.

(** The order in which [range] visits the map is immaterial: inserting the
    entries in any order gives the same entity. *)
Lemma merge_into_any_order (m : gmap string GoVal) (entity : Entity)
    (visits : list (string * GoVal)) :
  visits ≡ₚ map_to_list m →
  foldl (λ e kv, <[kv.1 := kv.2]> e) entity visits = merge_into m entity.
Proof.
  intros Hp. rewrite merge_into_union.
  assert (NoDup visits.*1) as Hnd.
  { rewrite Hp. apply NoDup_fst_map_to_list. }
  assert (m = list_to_map visits) as ->.
  { rewrite <- (list_to_map_to_list m). symmetry.
    by apply list_to_map_proper. }
  clear Hp. revert entity Hnd.
  induction visits as [|[k v] l IH]; intros entity Hnd.
  - by rewrite list_to_map_nil, (left_id_L ∅ (∪)).
  - rewrite fmap_cons in Hnd. apply NoDup_cons in Hnd as [Hk Hnd].
    cbn [foldl]. rewrite IH by done.
    rewrite list_to_map_cons, <- insert_union_l, <- insert_union_r; [done|].
    by apply not_elem_of_list_to_map_1.
Qed.

Lemma flatten_union (item : Item) :
  flatten item =
  Relationships item ∪
    (Attributes item ∪
       (<["type" := VString (Type_ item)]> (<["id" := VInt (ID item)]> ∅))).
Proof. unfold flatten. by rewrite !merge_into_union. Qed.

Lemma searchBody_marshal (filters : GoVal) :
  json_Marshal (searchBody filters) =
  match json_Marshal (if is_nil filters then VSlice (mk_slice []) else filters) with
  | inl err => inl err
  | inr text => inr (json_object [("filters", text)])
  end.
Proof.
  unfold searchBody. simpl. rewrite map_fold_singleton.
  by destruct (json_Marshal (if is_nil filters then _ else _)).
Qed.

Lemma FindEntities_paths entityType filters fields c w :
  FindEntities entityType filters fields c w =
  let '((token, err), c1, w1) := GetAccessToken c w in
  match err with
  | Some err =>
    ((nil_slice, Some (Errorf_w "failed to get access token: " err)), c1, w1)
  | None =>
    match json_Marshal (searchBody filters) with
    | inl err =>
      ((nil_slice, Some (Errorf_w "failed to marshal request: " err)), c1, w1)
    | inr bodyJSON =>
      let req := searchRequest c1 token entityType bodyJSON fields in
      match url_Parse_error (URL req) with
      | Some err =>
        ((nil_slice, Some (Errorf_w "failed to create request: " err)), c1, w1)
      | None =>
        (settle 200 json_Unmarshal_items nil_slice
           (λ data, mk_slice (flatten <$> data))
           (httpClient c1 (wire w1) req),
         c1, sent req w1)
      end
    end
  end.
Proof.
  unfold FindEntities, mbind, Go_bind.
  destruct (GetAccessToken c w) as [[[token [e|]] c1] w1]; [done|].
  replace (if negb (is_nil filters) then <["filters":=filters]> ∅
           else <["filters":=VSlice (mk_slice [])]> ∅)
    with ({[ "filters" :=
              if is_nil filters then VSlice (mk_slice []) else filters ]}
            : gmap string GoVal)
    by (by destruct filters; rewrite insert_empty).
  fold (searchBody filters).
  destruct (json_Marshal (searchBody filters)) as [e|bodyJSON]; [done|].
  unfold mret, Go_ret, self, http_NewRequest, Do, searchRequest, settle. simpl.
  destruct (url_Parse_error _); [done|]. simpl.
  destruct (httpClient c1 _ _) as [e|st [e|body]]; [done|done|].
  destruct (negb _); [done|].
  destruct (json_Unmarshal_items body); done.
Qed.

Lemma GetEntity_paths entityType id fields c w :
  GetEntity entityType id fields c w =
  let '((token, err), c1, w1) := GetAccessToken c w in
  match err with
  | Some err =>
    ((None, Some (Errorf_w "failed to get access token: " err)), c1, w1)
  | None =>
    let req := getRequest c1 token entityType id fields in
    match url_Parse_error (URL req) with
    | Some err =>
      ((None, Some (Errorf_w "failed to create request: " err)), c1, w1)
    | None =>
      (settle 200 json_Unmarshal_item None (λ data, Some (flatten data))
         (httpClient c1 (wire w1) req),
       c1, sent req w1)
    end
  end.
Proof.
  unfold GetEntity, mbind, Go_bind.
  destruct (GetAccessToken c w) as [[[token [e|]] c1] w1]; [done|].
  unfold mret, Go_ret, self, http_NewRequest, Do, getRequest, settle. simpl.
  destruct (url_Parse_error _); [done|]. simpl.
  destruct (httpClient c1 _ _) as [e|st [e|body]]; [done|done|].
  destruct (negb _); [done|].
  destruct (json_Unmarshal_item body); done.
Qed.

Lemma CreateEntity_paths entityType data c w :
  CreateEntity entityType data c w =
  let '((token, err), c1, w1) := GetAccessToken c w in
  match err with
  | Some err =>
    ((None, Some (Errorf_w "failed to get access token: " err)), c1, w1)
  | None =>
    match createBody data with
    | inl err =>
      ((None, Some (Errorf_w "failed to marshal request: " err)), c1, w1)
    | inr bodyJSON =>
      let req := createRequest c1 token entityType bodyJSON in
      match url_Parse_error (URL req) with
      | Some err =>
        ((None, Some (Errorf_w "failed to create request: " err)), c1, w1)
      | None =>
        (settle 201 json_Unmarshal_item None (λ data, Some (flatten data))
           (httpClient c1 (wire w1) req),
         c1, sent req w1)
      end
    end
  end.
Proof.
  unfold CreateEntity, mbind, Go_bind.
  destruct (GetAccessToken c w) as [[[token [e|]] c1] w1]; [done|].
  fold (createBody data).
  destruct (createBody data) as [e|bodyJSON]; [done|].
  unfold mret, Go_ret, self, http_NewRequest, Do, createRequest, settle. simpl.
  destruct (url_Parse_error _); [done|]. simpl.
  destruct (httpClient c1 _ _) as [e|st [e|body]]; [done|done|].
  destruct (negb _); [done|].
  destruct (json_Unmarshal_item body); done.
Qed.

(** The error [settle] returns begins the way its failure is read. *)
Lemma settle_failureKind {A R} expected (decode : string → error + A)
    (zero : R) ok resp :
  (settle expected decode zero ok resp).2 ≫= failureKind =
  answerFailure expected decode resp.
Proof.
  destruct resp as [e|st [e|body]]; simpl; [by cbv -[pretty]..|].
  destruct (negb _); [by cbv -[pretty]|].
  by destruct (decode body); cbv -[pretty].
Qed.

(** A result of [settle] without error is the decoded body. *)
Lemma settle_success {A R} expected (decode : string → error + A)
    (zero : R) ok resp r :
  settle expected decode zero ok resp = (r, None) →
  ∃ body data,
    resp = DoResponse expected (inr body) ∧ decode body = inr data ∧
    r = ok data.
Proof.
  destruct resp as [e|st [e|body]]; simpl; [done|done|].
  destruct (negb _) eqn:Hs; [done|].
  apply negb_false_iff, Z.eqb_eq in Hs as ->.
  destruct (decode body) as [e|data] eqn:Hd; [done|].
  intros [= <-]. eauto.
Qed.

Lemma FindEntities_flattened entityType filters fields c w entities c' w' :
  FindEntities entityType filters fields c w = ((entities, None), c', w') →
  ∃ body data,
    json_Unmarshal_items body = inr data ∧
    entities = mk_slice (flatten <$> data).
Proof.
  rewrite FindEntities_paths.
  destruct (GetAccessToken c w) as [[[token [e|]] c1] w1]; [done|].
  destruct (json_Marshal _); [done|]. simpl.
  destruct (url_Parse_error _); [done|].
  intros [= Hs _ _]. apply settle_success in Hs as (body & data & _ & ? & ?).
  eauto.
Qed.

Lemma GetEntity_flattened entityType id fields c w entity c' w' :
  GetEntity entityType id fields c w = ((entity, None), c', w') →
  ∃ body data,
    json_Unmarshal_item body = inr data ∧ entity = Some (flatten data).
Proof.
  rewrite GetEntity_paths.
  destruct (GetAccessToken c w) as [[[token [e|]] c1] w1]; [done|]. simpl.
  destruct (url_Parse_error _); [done|].
  intros [= Hs _ _]. apply settle_success in Hs as (body & data & _ & ? & ?).
  eauto.
Qed.

Lemma CreateEntity_flattened entityType data c w entity c' w' :
  CreateEntity entityType data c w = ((entity, None), c', w') →
  ∃ body item,
    json_Unmarshal_item body = inr item ∧ entity = Some (flatten item).
Proof.
  rewrite CreateEntity_paths.
  destruct (GetAccessToken c w) as [[[token [e|]] c1] w1]; [done|].
  destruct (createBody _); [done|]. simpl.
  destruct (url_Parse_error _); [done|].
  intros [= Hs _ _]. apply settle_success in Hs as (body & item & _ & ? & ?).
  eauto.
Qed.

Lemma flatten_lookup (item : Item) (k : string) :
  flatten item !! k =
  match Relationships item !! k with
  | Some r => Some r
  | None =>
    match Attributes item !! k with
    | Some a => Some a
    | None =>
      (<["type" := VString (Type_ item)]> (<["id" := VInt (ID item)]> ∅)
         : Entity) !! k
    end
  end.
Proof.
  rewrite flatten_union, !lookup_union.
  destruct (Relationships item !! k), (Attributes item !! k);
    by destruct (_ !! k).
Qed.

Lemma settle_answered {A R} expected (decode : string → error + A)
    (zero : R) ok body data :
  decode body = inr data →
  settle expected decode zero ok (DoResponse expected (inr body))
    = (ok data, None).
Proof. intros Hd. simpl. by rewrite Z.eqb_refl, Hd. Qed.

Lemma FindEntities_answered entityType filters fields c w token c1 w1
    bodyJSON body data :
  GetAccessToken c w = ((token, None), c1, w1) →
  json_Marshal (searchBody filters) = inr bodyJSON →
  let req := searchRequest c1 token entityType bodyJSON fields in
  url_Parse_error (URL req) = None →
  httpClient c1 (wire w1) req = DoResponse 200 (inr body) →
  json_Unmarshal_items body = inr data →
  FindEntities entityType filters fields c w
    = ((mk_slice (flatten <$> data), None), c1, sent req w1).
Proof.
  intros Htok Hm req Hu Hr Hd.
  rewrite FindEntities_paths, Htok, Hm. cbv beta iota zeta. fold req.
  rewrite Hu, Hr. by erewrite settle_answered.
Qed.

Lemma GetEntity_answered entityType id fields c w token c1 w1 body item :
  GetAccessToken c w = ((token, None), c1, w1) →
  let req := getRequest c1 token entityType id fields in
  url_Parse_error (URL req) = None →
  httpClient c1 (wire w1) req = DoResponse 200 (inr body) →
  json_Unmarshal_item body = inr item →
  GetEntity entityType id fields c w
    = ((Some (flatten item), None), c1, sent req w1).
Proof.
  intros Htok req Hu Hr Hd.
  rewrite GetEntity_paths, Htok. cbv beta iota zeta. fold req.
  rewrite Hu, Hr. by erewrite settle_answered.
Qed.

Lemma CreateEntity_answered entityType data c w token c1 w1
    bodyJSON body item :
  GetAccessToken c w = ((token, None), c1, w1) →
  createBody data = inr bodyJSON →
  let req := createRequest c1 token entityType bodyJSON in
  url_Parse_error (URL req) = None →
  httpClient c1 (wire w1) req = DoResponse 201 (inr body) →
  json_Unmarshal_item body = inr item →
  CreateEntity entityType data c w
    = ((Some (flatten item), None), c1, sent req w1).
Proof.
  intros Htok Hm req Hu Hr Hd.
  rewrite CreateEntity_paths, Htok, Hm. cbv beta iota zeta. fold req.
  rewrite Hu, Hr. by erewrite settle_answered.
Qed.

(** C4.  When the search request is answered 200 with a body that decodes
    to the items [data], [FindEntities] returns one entity per item, in
    order, and the entity of an item is its [id] and [type], with all its
    attributes merged over them and all its relationships merged last: a
    key of the relationships maps to the relationships' value, whatever the
    attributes hold under it.  [GetEntity] does the same with the one item
    of its answer. *)
Theorem flatten_relationships_win c w token c1 w1 :
  GetAccessToken c w = ((token, None), c1, w1) →
  (∀ entityType filters fields bodyJSON body data,
     json_Marshal (searchBody filters) = inr bodyJSON →
     let req := searchRequest c1 token entityType bodyJSON fields in
     url_Parse_error (URL req) = None →
     httpClient c1 (wire w1) req = DoResponse 200 (inr body) →
     json_Unmarshal_items body = inr data →
     ∃ entities,
       FindEntities entityType filters fields c w
         = ((mk_slice entities, None), c1, sent req w1) ∧
       length entities = length data ∧
       ∀ (i : nat) item,
         data !! i = Some item →
         ∃ entity : Entity,
           entities !! i = Some entity ∧
           entity =
             Relationships item ∪
               (Attributes item ∪
                  (<["type" := VString (Type_ item)]>
                     (<["id" := VInt (ID item)]> ∅))) ∧
           ∀ k r, Relationships item !! k = Some r → entity !! k = Some r) ∧
  (∀ entityType id fields body item,
     let req := getRequest c1 token entityType id fields in
     url_Parse_error (URL req) = None →
     httpClient c1 (wire w1) req = DoResponse 200 (inr body) →
     json_Unmarshal_item body = inr item →
     ∃ entity : Entity,
       GetEntity entityType id fields c w
         = ((Some entity, None), c1, sent req w1) ∧
       entity =
         Relationships item ∪
           (Attributes item ∪
              (<["type" := VString (Type_ item)]>
                 (<["id" := VInt (ID item)]> ∅))) ∧
       ∀ k r, Relationships item !! k = Some r → entity !! k = Some r).
Proof.
  intros Htok. split.
  - intros entityType filters fields bodyJSON body data Hm req Hu Hr Hd.
    exists (flatten <$> data). split_and!.
    + by apply FindEntities_answered with body.
    + apply length_fmap.
    + intros i item Hi. exists (flatten item). split_and!.
      * by rewrite list_lookup_fmap, Hi.
      * apply flatten_union.
      * intros k r Hk. by rewrite flatten_lookup, Hk.
  - intros entityType id fields body item req Hu Hr Hd.
    exists (flatten item). split_and!.
    + by apply GetEntity_answered with body.
    + apply flatten_union.
    + intros k r Hk. by rewrite flatten_lookup, Hk.
Qed.

(** C9.  When the request is answered with the accepted status and a body
    that decodes, the entity that [FindEntities], [GetEntity] and
    [CreateEntity] return for an item holds under [id] (and likewise under
    [type]) the relationships' value if the relationships have that key,
    else the attributes' value if the attributes have it, and the envelope's
    only when neither has it: a key named [id] or [type] in the payload
    overwrites the envelope's. *)
Theorem flatten_envelope_overwritten c w token c1 w1 :
  GetAccessToken c w = ((token, None), c1, w1) →
  let overwritten (item : Item) (entity : Entity) :=
    entity !! "id" =
      Some (default (default (VInt (ID item)) (Attributes item !! "id"))
              (Relationships item !! "id")) ∧
    entity !! "type" =
      Some (default (default (VString (Type_ item)) (Attributes item !! "type"))
              (Relationships item !! "type")) in
  (∀ entityType filters fields bodyJSON body data,
     json_Marshal (searchBody filters) = inr bodyJSON →
     let req := searchRequest c1 token entityType bodyJSON fields in
     url_Parse_error (URL req) = None →
     httpClient c1 (wire w1) req = DoResponse 200 (inr body) →
     json_Unmarshal_items body = inr data →
     ∃ entities,
       FindEntities entityType filters fields c w
         = ((mk_slice entities, None), c1, sent req w1) ∧
       length entities = length data ∧
       ∀ (i : nat) item,
         data !! i = Some item →
         ∃ entity, entities !! i = Some entity ∧ overwritten item entity) ∧
  (∀ entityType id fields body item,
     let req := getRequest c1 token entityType id fields in
     url_Parse_error (URL req) = None →
     httpClient c1 (wire w1) req = DoResponse 200 (inr body) →
     json_Unmarshal_item body = inr item →
     ∃ entity,
       GetEntity entityType id fields c w
         = ((Some entity, None), c1, sent req w1) ∧
       overwritten item entity) ∧
  (∀ entityType data bodyJSON body item,
     createBody data = inr bodyJSON →
     let req := createRequest c1 token entityType bodyJSON in
     url_Parse_error (URL req) = None →
     httpClient c1 (wire w1) req = DoResponse 201 (inr body) →
     json_Unmarshal_item body = inr item →
     ∃ entity,
       CreateEntity entityType data c w
         = ((Some entity, None), c1, sent req w1) ∧
       overwritten item entity).
Proof.
  intros Htok overwritten.
  assert (∀ item, overwritten item (flatten item)) as Hflat.
  { intros item. unfold overwritten. rewrite !flatten_lookup.
    split; by destruct (Relationships item !! _), (Attributes item !! _). }
  split_and!.
  - intros entityType filters fields bodyJSON body data Hm req Hu Hr Hd.
    exists (flatten <$> data). split_and!.
    + by apply FindEntities_answered with body.
    + apply length_fmap.
    + intros i item Hi. exists (flatten item).
      split; [by rewrite list_lookup_fmap, Hi|apply Hflat].
  - intros entityType id fields body item req Hu Hr Hd.
    exists (flatten item). split; [|apply Hflat].
    by apply GetEntity_answered with body.
  - intros entityType data bodyJSON body item Hm req Hu Hr Hd.
    exists (flatten item). split; [|apply Hflat].
    by apply CreateEntity_answered with body.
Qed.

Lemma GetAccessToken_failureKind c w tok e c1 w1 :
  GetAccessToken c w = ((tok, Some e), c1, w1) →
  url_Parse_error (URL (tokenRequest c)) = None →
  failureKind (Errorf_w "failed to get access token: " e) =
    answerFailure 200 json_Unmarshal_token
      (httpClient c (wire w) (tokenRequest c)).
Proof.
  rewrite GetAccessToken_paths. destruct (_ <? _); [|done].
  rewrite authenticate_paths. intros Hrun Hu. rewrite Hu in Hrun.
  cbv zeta in Hrun. change (wire (ticked w)) with (wire w) in Hrun.
  destruct (httpClient c (wire w) (tokenRequest c)) as [e'|st [e'|body]];
    simpl in *.
  - injection Hrun as _ <- _ _. by cbv -[pretty].
  - injection Hrun as _ <- _ _. by cbv -[pretty].
  - destruct (negb _).
    + injection Hrun as _ <- _ _. by cbv -[pretty].
    + destruct (json_Unmarshal_token body); [|done].
      injection Hrun as _ <- _ _. by cbv -[pretty].
Qed.

(** C2.  The error an entity operation returns tells which failure
    occurred.  [failureKind], a function of the error value alone, gives the
    transport failure, the decode failure or the rejection exactly when the
    answer to the request was that failure, and nothing when it was none of
    them: for the request of [FindEntities], [GetEntity] and [CreateEntity]
    once the token is at hand, and likewise for the token request when the
    operation has to refresh the token first and that fails. *)
Theorem entity_failures_told_apart c w :
  (∀ token c1 w1,
     GetAccessToken c w = ((token, None), c1, w1) →
     (∀ entityType filters fields bodyJSON,
        json_Marshal (searchBody filters) = inr bodyJSON →
        let req := searchRequest c1 token entityType bodyJSON fields in
        url_Parse_error (URL req) = None →
        ∃ r err,
          FindEntities entityType filters fields c w
            = ((r, err), c1, sent req w1) ∧
          err ≫= failureKind =
            answerFailure 200 json_Unmarshal_items
              (httpClient c1 (wire w1) req)) ∧
     (∀ entityType id fields,
        let req := getRequest c1 token entityType id fields in
        url_Parse_error (URL req) = None →
        ∃ r err,
          GetEntity entityType id fields c w = ((r, err), c1, sent req w1) ∧
          err ≫= failureKind =
            answerFailure 200 json_Unmarshal_item
              (httpClient c1 (wire w1) req)) ∧
     (∀ entityType data bodyJSON,
        createBody data = inr bodyJSON →
        let req := createRequest c1 token entityType bodyJSON in
        url_Parse_error (URL req) = None →
        ∃ r err,
          CreateEntity entityType data c w = ((r, err), c1, sent req w1) ∧
          err ≫= failureKind =
            answerFailure 201 json_Unmarshal_item
              (httpClient c1 (wire w1) req))) ∧
  (∀ token e c1 w1,
     GetAccessToken c w = ((token, Some e), c1, w1) →
     url_Parse_error (URL (tokenRequest c)) = None →
     ∃ err,
       failureKind err =
         answerFailure 200 json_Unmarshal_token
           (httpClient c (wire w) (tokenRequest c)) ∧
       (∀ entityType filters fields,
          FindEntities entityType filters fields c w
            = ((nil_slice, Some err), c1, w1)) ∧
       (∀ entityType id fields,
          GetEntity entityType id fields c w = ((None, Some err), c1, w1)) ∧
       (∀ entityType data,
          CreateEntity entityType data c w = ((None, Some err), c1, w1))).
Proof.
  split.
  - intros token c1 w1 Htok. split_and!.
    + intros entityType filters fields bodyJSON Hm req Hu.
      rewrite FindEntities_paths, Htok, Hm. cbv beta iota zeta. fold req.
      rewrite Hu.
      set (res := settle _ _ _ _ _). exists res.1, res.2.
      split; [by destruct res|]. apply settle_failureKind.
    + intros entityType id fields req Hu.
      rewrite GetEntity_paths, Htok. cbv beta iota zeta. fold req. rewrite Hu.
      set (res := settle _ _ _ _ _). exists res.1, res.2.
      split; [by destruct res|]. apply settle_failureKind.
    + intros entityType data bodyJSON Hm req Hu.
      rewrite CreateEntity_paths, Htok, Hm. cbv beta iota zeta. fold req.
      rewrite Hu.
      set (res := settle _ _ _ _ _). exists res.1, res.2.
      split; [by destruct res|]. apply settle_failureKind.
  - intros token e c1 w1 Htok Hu.
    exists (Errorf_w "failed to get access token: " e). split_and!.
    + by apply (GetAccessToken_failureKind _ _ token _ c1 w1).
    + intros. by rewrite FindEntities_paths, Htok.
    + intros. by rewrite GetEntity_paths, Htok.
    + intros. by rewrite CreateEntity_paths, Htok.
Qed.

(** C7.  The body [FindEntities] sends is the JSON object with the one
    field [filters].  With nil [filters] its value is the empty array, not
    [null] and not left out; otherwise it is the encoding of [filters] as
    given.  No request leaves when the value cannot be encoded. *)
Theorem FindEntities_filters_field entityType filters fields c w token c1 w1 :
  GetAccessToken c w = ((token, None), c1, w1) →
  let value := if is_nil filters then VSlice (mk_slice []) else filters in
  (is_nil filters = true → json_Marshal value = inr "[]") ∧
  (∀ text,
     json_Marshal value = inr text →
     let req := searchRequest c1 token entityType
                  (json_object [("filters", text)]) fields in
     url_Parse_error (URL req) = None →
     Body req = Some ("{" +:+ (json_string "filters" +:+ ":" +:+ text) +:+ "}") ∧
     ∃ r, FindEntities entityType filters fields c w = (r, c1, sent req w1)) ∧
  (∀ err,
     json_Marshal value = inl err →
     FindEntities entityType filters fields c w =
       ((nil_slice, Some (Errorf_w "failed to marshal request: " err)), c1, w1)).
Proof.
  intros Htok value. split_and!.
  - intros Hn. unfold value. by rewrite Hn.
  - intros text Hm req Hu. split; [done|].
    rewrite FindEntities_paths, Htok, searchBody_marshal. fold value.
    rewrite Hm. cbv beta iota zeta. fold req. rewrite Hu. eauto.
  - intros err Hm.
    rewrite FindEntities_paths, Htok, searchBody_marshal. fold value.
    by rewrite Hm.
Qed.

End EntityOperations.

(** *** The statements on the site scenario *)

Lemma run_eq {A B C} (x : A * B * C) (a : A) :
  x.1.1 = a → x = (a, x.1.2, x.2).
Proof. destruct x as [[? ?] ?]. by intros <-. Qed.

Lemma run_eq_client {A B C} (x : A * B * C) (a : A) (b : B) :
  x.1.1 = a → x.1.2 = b → x = (a, b, x.2).
Proof. destruct x as [[? ?] ?]. by intros <- <-. Qed.

Lemma entity_failures_told_apart_witness :
  let c := site_client 60000000000 in
  ((FindEntities (rt := site_rt) "unreachable" VNil [] c world0).1.1.2
     ≫= failureKind = Some TransportFailure) ∧
  ((FindEntities (rt := site_rt) "garbled" VNil [] c world0).1.1.2
     ≫= failureKind = Some DecodeFailure) ∧
  ((GetEntity (rt := site_rt) "assets" 3 [] c world0).1.1.2
     ≫= failureKind = Some Rejection) ∧
  ((GetEntity (rt := offline_rt) "shots" 7 [] offline_client world0).1.1.2
     ≫= failureKind = Some TransportFailure).
Proof.
  intros c.
  destruct (entity_failures_told_apart (rt := site_rt) c world0)
    as [Hsent _].
  destruct (Hsent "tok-0" c (ticked world0) eq_refl) as (Hfind & Hget & _).
  split_and!.
  - destruct (Hfind "unreachable" VNil [] _ eq_refl eq_refl)
      as (r & err & Hrun & Hk).
    rewrite Hrun. cbn [fst snd]. rewrite Hk. reflexivity.
  - destruct (Hfind "garbled" VNil [] _ eq_refl eq_refl)
      as (r & err & Hrun & Hk).
    rewrite Hrun. cbn [fst snd]. rewrite Hk. reflexivity.
  - destruct (Hget "assets" 3 [] eq_refl) as (r & err & Hrun & Hk).
    rewrite Hrun. cbn [fst snd]. rewrite Hk. reflexivity.
  - destruct (entity_failures_told_apart (rt := offline_rt)
                offline_client world0) as [_ Htoken].
    destruct (Htoken "" _ _ _
                (run_eq _ _ ltac:(vm_compute; reflexivity)) eq_refl)
      as (err & Hk & _ & Hget' & _).
    rewrite Hget'. cbn [fst snd mbind option_bind]. rewrite Hk. reflexivity.
Defined.

Lemma searchBody_nil_site (rt : Runtime) :
  json_string = (λ s, dquote +:+ s +:+ dquote) →
  json_Marshal (searchBody VNil)
    = inr ("{" +:+ dquote +:+ "filters" +:+ dquote +:+ ":[]}").
Proof.
  intros Hs. rewrite searchBody_marshal. cbn [is_nil json_Marshal map all_encoded].
  unfold json_object, json_field. cbn [fmap list_fmap fst snd]. rewrite Hs.
  reflexivity.
Qed.

Lemma flatten_relationships_win_witness :
  let c := site_client 60000000000 in
  ∃ entity : Entity,
    (FindEntities (rt := clash_rt) "shots" VNil ["code"] c world0).1.1
      = (mk_slice [entity], None) ∧
    entity !! "a" = Some (VFloat (whole 2)) ∧
    entity !! "code" = Some (VString "sh010").
Proof.
  intros c.
  destruct (flatten_relationships_win (rt := clash_rt) c world0
              "tok-0" c (ticked world0) eq_refl) as [Hfind _].
  destruct (Hfind "shots" VNil ["code"] _ "shots.json" [clash_shot]
              (searchBody_nil_site clash_rt eq_refl) eq_refl eq_refl eq_refl)
    as (entities & Hrun & Hlen & Hitems).
  destruct (Hitems 0%nat clash_shot eq_refl) as (entity & Hi & Heq & Hwin).
  clear Hitems.
  destruct entities as [|first [|second rest]]; [discriminate Hi| |discriminate Hlen].
  injection Hi as ->. exists entity. rewrite Hrun. clear Hrun.
  split; [reflexivity|]. split.
  - apply Hwin. reflexivity.
  - rewrite Heq. reflexivity.
Defined.

Lemma flatten_envelope_overwritten_witness :
  let c := site_client 60000000000 in
  ∃ entity : Entity,
    (CreateEntity (rt := masked_rt) "shots" None c world0).1.1
      = (Some entity, None) ∧
    entity !! "id" = Some (VFloat (whole 99)) ∧
    entity !! "type" = Some (VString "Sequence").
Proof.
  intros c.
  destruct (flatten_envelope_overwritten (rt := masked_rt) c world0
              "tok-0" c (ticked world0) eq_refl) as (_ & _ & Hcreate).
  destruct (Hcreate "shots" None "null" "shot.json" masked_shot
              eq_refl eq_refl eq_refl eq_refl)
    as (entity & Hrun & Hid & Htype).
  exists entity. rewrite Hrun. clear Hrun.
  split; [reflexivity|]. split; [exact Hid|exact Htype].
Defined.

Lemma FindEntities_filters_field_witness :
  let c := site_client 60000000000 in
  let req := searchRequest c "tok-0" "shots"
               ("{" +:+ (dquote +:+ "filters" +:+ dquote +:+ ":" +:+ "[]") +:+ "}")
               ["code"] in
  ∃ r, FindEntities (rt := site_rt) "shots" VNil ["code"] c world0 =
         (r, c, sent req (ticked world0)).
Proof.
  intros c req.
  destruct (FindEntities_filters_field (rt := site_rt) "shots" VNil ["code"]
              c world0 "tok-0" c (ticked world0) eq_refl)
    as (Hnil & Hsent & _).
  destruct (Hsent "[]" (Hnil eq_refl) eq_refl) as [_ Hrun].
  exact Hrun.
Defined.

(** ** Convenience queries *)

Section ConvenienceQueries.
Context `{rt : Runtime}.

Lemma add_shot_elem (shotIDs : gset Z) (task : Entity) (z : Z) :
  z ∈ add_shot shotIDs task ↔ z ∈ shotIDs ∨ relates_shot task z.
Proof.
  unfold add_shot, relates_shot, names_shot, unwrapped.
  destruct (task !! "entity") as [[| | | | | | |entity]|];
    try (split; [by left|by intros [?|(? & ? & _)]]).
  set (obj := match entity !! "data" with
              | Some (VMap data) => data
              | _ => entity
              end).
  assert (∀ s : gset Z,
            z ∈ s ∨ (∃ e, Some (VMap entity) = Some (VMap e) ∧
                          names_shot (match e !! "data" with
                                      | Some (VMap data) => data
                                      | _ => e
                                      end) z)
            ↔ z ∈ s ∨ names_shot obj z) as Hobj.
  { intros s. split; (intros [?|Hn]; [by left|right]).
    - by destruct Hn as (e & [= <-] & ?).
    - by exists entity. }
  unfold names_shot in Hobj. rewrite Hobj. clear Hobj.
  destruct (obj !! "type") as [[| | | |typ| | |]|];
    try (split; [by left|by intros [?|[? _]]]).
  destruct (String.eqb_spec typ "Shot") as [->|Hne]; cycle 1.
  { split; [by left|]. intros [?|[? _]]; [done|congruence]. }
  destruct (obj !! "id") as [[| |n|f| | | |]|];
    try (split; [by left|by intros [?|[_ [(? & ? & _)|?]]]]).
  - rewrite elem_of_union, elem_of_singleton. split.
    + intros [->|?]; [right|by left]. split; [done|by right].
    + intros [?|[_ [(? & ? & _)|[= ->]]]]; [by right|done|by left].
  - rewrite elem_of_union, elem_of_singleton. split.
    + intros [->|?]; [right|by left]. split; [done|left; by exists f].
    + intros [?|[_ [(? & [= <-] & ->)|?]]]; [by right|by left|done].
Qed.

Lemma foldl_add_shot_elem (tasks : list Entity) (shotIDs : gset Z) (z : Z) :
  z ∈ foldl add_shot shotIDs tasks ↔
  z ∈ shotIDs ∨ ∃ task, task ∈ tasks ∧ relates_shot task z.
Proof.
  revert shotIDs. induction tasks as [|task tasks IH]; intros shotIDs.
  - simpl. split; [by left|]. intros [?|(? & []%elem_of_nil & _)]. done.
  - cbn [foldl]. rewrite IH, add_shot_elem. split.
    + intros [[?|?]|(t & ? & ?)]; [by left|right..].
      * exists task. split; [left|done].
      * exists t. split; [by right|done].
    + intros [?|(t & [->|?]%elem_of_cons & ?)].
      * by left; left.
      * by left; right.
      * right. by exists t.
Qed.

Lemma GetShotsForUser_paths userID fields c w :
  GetShotsForUser userID fields c w =
  let '((tasks, err), c1, w1) := GetTasksForUser userID ["entity"] c w in
  match err with
  | Some err => ((nil_slice, Some err), c1, w1)
  | None =>
    let shotIDs : gset Z := foldl add_shot ∅ (elems tasks) in
    if decide (size shotIDs = 0%nat) then ((mk_slice [], None), c1, w1)
    else
      FindEntities "shots" (shotsFilter (range_keys shotIDs))
        (fields_or fields ["code"; "description"; "sg_status_list"; "project"])
        c1 w1
  end.
Proof.
  unfold GetShotsForUser, mbind, Go_bind.
  destruct (GetTasksForUser _ _ c w) as [[[tasks [e|]] c1] w1]; [done|].
  by destruct (decide _).
Qed.

(** C5.  When the first step, the search of the user's tasks, succeeds
    with no task, [GetShotsForUser] returns the empty, non-nil sequence and
    no error, in the very state the first step left: no further request is
    sent. *)
Theorem GetShotsForUser_no_tasks userID fields c w tasks c1 w1 :
  GetTasksForUser userID ["entity"] c w = ((tasks, None), c1, w1) →
  elems tasks = [] →
  GetShotsForUser userID fields c w = ((mk_slice [], None), c1, w1) ∧
  wire (GetShotsForUser userID fields c w).2 = wire w1.
Proof.
  intros Hrun Hnone. rewrite GetShotsForUser_paths, Hrun, Hnone. done.
Qed.

(** C8.  [GetUserByLogin] searches [human_users] by login.  An error of
    the search is passed on.  A search that succeeds with no match, which
    for [FindEntities] is an empty sequence and no error, becomes the error
    [user not found], which reads as none of the failures of a request.  A
    search with matches gives the first of them. *)
Theorem GetUserByLogin_first_or_not_found login c w :
  ∃ users err c' w',
    FindEntities "human_users"
      (list_of [list_of [VString "login"; VString "is"; VString login]])
      ["id"; "name"; "login"; "email"] c w = ((users, err), c', w') ∧
    match err with
    | Some err => GetUserByLogin login c w = ((None, Some err), c', w')
    | None =>
      users = mk_slice (elems users) ∧
      match elems users with
      | [] =>
        let notFound := ErrorString ("user not found with login: " +:+ login) in
        GetUserByLogin login c w = ((None, Some notFound), c', w') ∧
        failureKind notFound = None
      | user :: _ => GetUserByLogin login c w = ((Some user, None), c', w')
      end
    end.
Proof.
  unfold GetUserByLogin, mbind, Go_bind.
  destruct (FindEntities _ _ _ c w) as [[[users [e|]] c'] w'] eqn:Hrun;
    eexists _, _, _, _; (split; [done|]); [done|].
  split.
  - apply FindEntities_flattened in Hrun as (body & data & _ & ->). done.
  - by destruct (elems users).
Qed.

(** X14.  [GetUserByName] is [GetUserByLogin] on the [name] field: the
    error of the search is passed on unwrapped, no match is the error
    [user not found with name], and otherwise the first match is returned,
    in the state the search left. *)
Lemma GetUserByName_first_or_not_found name c w :
  ∃ users err c' w',
    FindEntities "human_users"
      (list_of [list_of [VString "name"; VString "is"; VString name]])
      ["id"; "name"; "login"; "email"] c w = ((users, err), c', w') ∧
    match err with
    | Some err => GetUserByName name c w = ((None, Some err), c', w')
    | None =>
      match elems users with
      | [] =>
        GetUserByName name c w =
          ((None, Some (ErrorString ("user not found with name: " +:+ name))),
           c', w')
      | user :: _ => GetUserByName name c w = ((Some user, None), c', w')
      end
    end.
Proof.
  unfold GetUserByName, mbind, Go_bind.
  destruct (FindEntities _ _ _ c w) as [[[users [e|]] c'] w'];
    eexists _, _, _, _; (split; [done|]); [done|].
  by destruct (elems users).
Qed.

(** C10.  From the tasks the first step found, [GetShotsForUser] passes to
    the second search the ids of the shots the tasks relate to: an id is
    passed exactly when some task holds under [entity] an object, taken as
    it is or one level below under [data], whose type is [Shot] and whose id
    is a number; every other task is skipped; and each id is passed once,
    in the order [range] visits them.  With no such id there is no second
    search. *)
Theorem GetShotsForUser_shot_ids userID fields c w tasks c1 w1 :
  (∀ s, range_keys s ≡ₚ elements s) →
  GetTasksForUser userID ["entity"] c w = ((tasks, None), c1, w1) →
  ∃ ids,
    NoDup ids ∧
    (∀ z, z ∈ ids ↔ ∃ task, task ∈ elems tasks ∧ relates_shot task z) ∧
    GetShotsForUser userID fields c w =
      match ids with
      | [] => ((mk_slice [], None), c1, w1)
      | _ =>
        FindEntities "shots" (shotsFilter ids)
          (fields_or fields ["code"; "description"; "sg_status_list"; "project"])
          c1 w1
      end.
Proof.
  intros Hrange Hrun.
  set (shotIDs := foldl add_shot (∅ : gset Z) (elems tasks)).
  exists (range_keys shotIDs). split_and!.
  - rewrite Hrange. apply NoDup_elements.
  - intros z. rewrite Hrange, elem_of_elements.
    unfold shotIDs. rewrite foldl_add_shot_elem.
    split; [|by right]. by intros [?%not_elem_of_empty|?].
  - rewrite GetShotsForUser_paths, Hrun. cbv beta iota zeta. fold shotIDs.
    destruct (decide (size shotIDs = 0%nat)) as [Hz|Hnz].
    + apply size_empty_inv, leibniz_equiv in Hz.
      assert (range_keys shotIDs = []) as ->; [|done].
      apply Permutation_nil_r. by rewrite Hrange, Hz, elements_empty.
    + destruct (range_keys shotIDs) eqn:Hk; [|done].
      exfalso. apply Hnz. specialize (Hrange shotIDs). rewrite Hk in Hrange.
      symmetry in Hrange. apply Permutation_nil_r in Hrange.
      by apply elements_empty_inv, leibniz_equiv in Hrange as ->.
Qed.

End ConvenienceQueries.

(** *** The statements on the site scenario *)

Lemma GetShotsForUser_no_tasks_witness :
  let c := site_client 60000000000 in
  (GetShotsForUser (rt := site_rt) 42 ["code"] c world0).1.1
    = (mk_slice [], None) ∧
  length (wire (GetShotsForUser (rt := site_rt) 42 ["code"] c world0).2)
    = 1%nat.
Proof.
  intros c.
  destruct (GetShotsForUser_no_tasks (rt := site_rt) 42 ["code"] c world0
              (mk_slice []) _ _ (run_eq _ _ ltac:(vm_compute; reflexivity))
              eq_refl) as [Hrun Hwire].
  rewrite Hwire, Hrun. split; [done|]. by vm_compute.
Defined.

Lemma GetShotsForUser_shot_ids_witness :
  let c := site_client 60000000000 in
  ∃ ids c1 w1,
    NoDup ids ∧ (∀ z, z ∈ ids ↔ z = 7 ∨ z = 12) ∧
    GetShotsForUser (rt := user_rt) 42 [] c world0 =
      FindEntities (rt := user_rt) "shots" (shotsFilter ids)
        ["code"; "description"; "sg_status_list"; "project"] c1 w1.
Proof.
  intros c.
  destruct (GetShotsForUser_shot_ids (rt := user_rt) 42 [] c world0
              (mk_slice (flatten <$> user_tasks)) _ _
              (λ s, reflexivity (elements s))
              (run_eq _ _ ltac:(vm_compute; reflexivity)))
    as (ids & Hnd & Hmem & Hrun).
  cbn [elems] in Hmem.
  assert (∀ z, z ∈ ids ↔ z = 7 ∨ z = 12) as Hids.
  { clear Hrun. intros z. rewrite Hmem.
    transitivity (z ∈ foldl (add_shot (rt := user_rt)) (∅ : gset Z)
                        (flatten <$> user_tasks)).
    { rewrite foldl_add_shot_elem. split; [by right|].
      by intros [?%not_elem_of_empty|?]. }
    replace (foldl _ _ _) with ({[7; 12]} : gset Z)
      by (vm_compute; reflexivity).
    by rewrite elem_of_union, !elem_of_singleton. }
  exists ids, (GetTasksForUser (rt := user_rt) 42 ["entity"] c world0).1.2,
    (GetTasksForUser (rt := user_rt) 42 ["entity"] c world0).2.
  split_and!; [exact Hnd|exact Hids|].
  rewrite Hrun. clear Hrun. destruct ids as [|id ids]; [|reflexivity].
  exfalso. apply (not_elem_of_nil (7 : Z)), Hids. by left.
Defined.

(** ** More on construction and the token *)

Section Construction.
Context `{rt : Runtime}.

(** X1.  A configuration that lacks the site URL, the script name or the
    script key is refused with the error of the first one missing, in that
    order, and nothing else happens: no client, no clock reading, no
    request, no token exchange. *)
Theorem NewClient_missing_credentials config w :
  SiteURL config = "" ∨ ScriptName config = "" ∨ ScriptKey config = "" →
  NewClient config w =
    (None,
     Some (ErrorString
             (if String.eqb (SiteURL config) "" then "site URL is required"
              else if String.eqb (ScriptName config) "" then
                "script name is required"
              else "script key is required")),
     w).
Proof.
  intros Hmissing. unfold NewClient.
  destruct (String.eqb_spec (SiteURL config) ""); [done|].
  destruct (String.eqb_spec (ScriptName config) ""); [done|].
  destruct (String.eqb_spec (ScriptKey config) ""); [done|].
  by destruct Hmissing as [?|[?|?]].
Qed.

(** X2.  With the credentials present, [NewClient] sends at most one
    request.  When [http.NewRequest] accepts the URL it sends exactly one: a
    form-encoded POST of the client credentials to
    [{SiteURL}/api/{version}/auth/access_token], where the version is the
    configured one, or [v1.1] when none is configured, through the
    configured HTTP client, or the default one when none is configured; the
    client it returns keeps these settings.  When the URL is refused it
    sends nothing and returns the error of the refusal, wrapped twice. *)
Theorem NewClient_token_request config w :
  SiteURL config ≠ "" → ScriptName config ≠ "" → ScriptKey config ≠ "" →
  let version :=
    if String.eqb (APIVersion config) "" then "v1.1" else APIVersion config in
  let transport := default defaultHTTPClient (HTTPClient_ config) in
  let req :=
    {| Method := "POST";
       URL := SiteURL config +:+ "/api/" +:+ version +:+ "/auth/access_token";
       Header := <["Accept" := "application/json"]>
                   (<["Content-Type" := "application/x-www-form-urlencoded"]> ∅);
       Body := Some ("client_id=" +:+ url_QueryEscape (ScriptName config) +:+
                     "&client_secret=" +:+ url_QueryEscape (ScriptKey config) +:+
                     "&grant_type=client_credentials") |} in
  match url_Parse_error (URL req) with
  | Some err =>
    NewClient config w =
      (None,
       Some (Errorf_w "initial authentication failed: "
               (Errorf_w "failed to create request: " err)),
       entered w) ∧
    wire (NewClient config w).2 = wire w
  | None =>
    wire (NewClient config w).2 = (wire w ++ [req])%list ∧
    (∀ client,
       (NewClient config w).1.1 = Some client →
       (∃ body, transport (wire w) req = DoResponse 200 (inr body)) ∧
       baseURL client = SiteURL config ∧ apiVersion client = version ∧
       httpClient client = transport ∧
       scriptName client = ScriptName config ∧
       scriptKey client = ScriptKey config)
  end.
Proof.
  intros H1 H2 H3 version transport req.
  rewrite NewClient_paths by done.
  assert (tokenRequest (freshClient config) = req) as Hreq.
  { unfold tokenRequest, freshClient, req, version, Header_Set, form,
      defaultAPIVersion. simpl. done. }
  assert (httpClient (freshClient config) = transport) as Hh.
  { unfold freshClient, transport. simpl. by destruct (HTTPClient_ config). }
  rewrite authenticate_paths, Hreq, Hh. cbv zeta.
  destruct (url_Parse_error (URL req)) as [err|]; [by split|].
  destruct (transport (wire w) req) as [e|st [e|body]]; [by split..|].
  destruct (negb _) eqn:Hs; [by split|].
  apply negb_false_iff, Z.eqb_eq in Hs as ->.
  destruct (json_Unmarshal_token body); [by split|].
  split; [done|]. intros client [= <-]. simpl.
  split_and!; eauto.
Qed.

Lemma GetAccessToken_returns_stored c w token c1 w1 :
  GetAccessToken c w = ((token, None), c1, w1) → token = accessToken c1.
Proof.
  rewrite GetAccessToken_paths. destruct (_ <? _).
  - destruct (authenticate c (ticked w)) as [[[e|] c'] w']; [done|].
    by intros [= <- <- _].
  - by intros [= <- <- _].
Qed.

(** X3.  A granted token is used again as long as it has more than the
    margin left: the call of [GetAccessToken] that follows a successful
    exchange returns the granted token without a new exchange when the
    instant it reads, plus 60 seconds, is not after the expiry, and makes a
    new exchange otherwise.  So a token whose lifetime, as the
    [time.Duration] the code computes, is under 60 seconds is never used
    twice unless the clock steps back; that is the case of every
    [expires_in] from -9223372036 to 59, the range below 60 in which the
    duration does not wrap around. *)
Theorem token_reused_until_margin c w tr c' w' :
  token_granted c w tr →
  authenticate c w = (None, c', w') →
  let expiry := clock (ticks w) + Duration_mul (ExpiresIn tr) Second in
  tokenExpiry c' = expiry ∧
  (clock (ticks w') + 60 * 1000000000 ≤ expiry →
   GetAccessToken c' w' = ((AccessToken tr, None), c', ticked w')) ∧
  (expiry < clock (ticks w') + 60 * 1000000000 →
   exchanges (GetAccessToken c' w').2 = S (exchanges w')) ∧
  (Duration_mul (ExpiresIn tr) Second < 60 * 1000000000 →
   clock (ticks w) ≤ clock (ticks w') →
   exchanges (GetAccessToken c' w').2 = S (exchanges w')) ∧
  (-9223372036 ≤ ExpiresIn tr < 60 →
   clock (ticks w) ≤ clock (ticks w') →
   exchanges (GetAccessToken c' w').2 = S (exchanges w')).
Proof.
  intros Hg Ha expiry. rewrite (token_granted_authenticate _ _ _ Hg) in Ha.
  injection Ha as <- <-.
  assert (∀ c1 w1, tokenExpiry c1 < clock (ticks w1) + 60 * 1000000000 →
            exchanges (GetAccessToken c1 w1).2 = S (exchanges w1)) as Hrefresh.
  { intros c1 w1 Hlt. rewrite GetAccessToken_paths.
    apply Z.ltb_lt in Hlt as ->.
    pose proof (authenticate_exchanges c1 (ticked w1)) as He.
    by destruct (authenticate c1 (ticked w1)) as [[? ?] ?]. }
  split_and!.
  - done.
  - intros Hle. rewrite GetAccessToken_paths.
    change (tokenExpiry (with_token tr (clock (ticks w)) c)) with expiry.
    by apply Z.ltb_ge in Hle as ->.
  - intros Hlt. by apply Hrefresh.
  - intros Hn Hclock. apply Hrefresh.
    change (tokenExpiry (with_token tr (clock (ticks w)) c)) with expiry.
    unfold expiry. lia.
  - intros Hn Hclock. apply Hrefresh.
    change (tokenExpiry (with_token tr (clock (ticks w)) c)) with expiry.
    unfold expiry. rewrite Duration_mul_exact by lia. lia.
Qed.

End Construction.

(** ** What no method does *)

Ltac authenticate_outcomes c w :=
  rewrite (authenticate_paths c w);
  destruct (url_Parse_error (URL (tokenRequest c)));
  [|destruct (httpClient c (wire w) (tokenRequest c)) as [?|? [?|?]];
    [| |destruct (negb _); [|destruct (json_Unmarshal_token _)]]];
  cbv zeta.

Section Budget.
Context `{rt : Runtime}.

Lemma same_settings_refl c : same_settings c c.
Proof. by repeat split. Qed.

Lemma same_settings_trans c1 c2 c3 :
  same_settings c1 c2 → same_settings c2 c3 → same_settings c1 c3.
Proof.
  unfold same_settings. intros (?&?&?&?&?) (?&?&?&?&?).
  split_and!; congruence.
Qed.

Lemma within_refl w : within 0 0 w w.
Proof. exists []. rewrite app_nil_r. split_and!; try done; simpl; lia. Qed.

Lemma within_mono a b a' b' w w' :
  (a ≤ a')%nat → (b ≤ b')%nat → within a b w w' → within a' b' w w'.
Proof.
  intros ? ? (reqs & ? & ? & ?). exists reqs. split_and!; try done; lia.
Qed.

Lemma within_trans a b a' b' w w' w'' :
  within a b w w' → within a' b' w' w'' → within (a + a') (b + b') w w''.
Proof.
  intros (r1 & Hw1 & ? & ?) (r2 & Hw2 & ? & ?). exists (r1 ++ r2)%list.
  rewrite Hw2, Hw1, <- app_assoc, length_app. split_and!; try done; lia.
Qed.

Lemma within_sent req w : within 1 0 w (sent req w).
Proof. exists [req]. split_and!; try done; simpl; lia. Qed.

Lemma within_ticked w : within 0 0 w (ticked w).
Proof.
  exists []. simpl. rewrite app_nil_r. split_and!; try done; simpl; lia.
Qed.

Lemma within_entered w : within 0 1 w (entered w).
Proof.
  exists []. simpl. rewrite app_nil_r. split_and!; try done; simpl; lia.
Qed.

Lemma behaves_mono {A} a b a' b' c w (run : A * Client * World) :
  (a ≤ a')%nat → (b ≤ b')%nat → behaves a b c w run → behaves a' b' c w run.
Proof. intros ? ? [? ?]. split; [done|]. by eapply within_mono. Qed.

(** Sequencing: a run from the state another run left. *)
Lemma behaves_then {A B} a b a' b' c w (first : A * Client * World)
    (second : B * Client * World) :
  behaves a b c w first →
  behaves a' b' first.1.2 first.2 second →
  behaves (a + a') (b + b') c w second.
Proof.
  intros [? ?] [? ?]. split.
  - by eapply same_settings_trans.
  - by eapply within_trans.
Qed.

Lemma authenticate_behaves c w : behaves 1 1 c w (authenticate c w).
Proof.
  assert (∀ req, within 1 1 w (sent req (entered w))) as Hsent.
  { intros req. apply (within_trans 0 1 1 0 _ (entered w));
      [apply within_entered|apply within_sent]. }
  assert (within 1 1 w (entered w)) as Hentered.
  { eapply within_mono; [| |apply within_entered]; lia. }
  authenticate_outcomes c w;
    (split; [by repeat split|]); simpl; try done.
  apply (within_trans 1 1 0 0 _ (sent (tokenRequest c) (entered w)));
    [done|apply within_ticked].
Qed.

Lemma GetAccessToken_behaves c w : behaves 1 1 c w (GetAccessToken c w).
Proof.
  rewrite GetAccessToken_paths. destruct (_ <? _).
  - pose proof (authenticate_behaves c (ticked w)) as [Hs Hw].
    destruct (authenticate c (ticked w)) as [[err c'] w']. split; [done|].
    apply (within_trans 0 0 1 1 _ (ticked w)); [apply within_ticked|done].
  - split; [apply same_settings_refl|]. simpl.
    eapply within_mono; [| |apply within_ticked]; lia.
Qed.

Lemma IsAuthenticated_behaves c w : behaves 0 0 c w (IsAuthenticated c w).
Proof.
  unfold IsAuthenticated, mbind, mret, Go_bind, Go_ret, self, time_Now.
  destruct (negb _); (split; [apply same_settings_refl|]); simpl.
  - apply (within_ticked w).
  - apply within_refl.
Qed.

Lemma behaves_after {A B} a b c w (x : A) (y : B) c1 w1 :
  behaves a b c w (x, c1, w1) → behaves a b c w (y, c1, w1).
Proof. done. Qed.

Lemma behaves_sent {A B} c w (x : A) (y : B) c1 w1 req :
  behaves 1 1 c w (x, c1, w1) → behaves 2 1 c w (y, c1, sent req w1).
Proof.
  intros [? ?]. split; [done|].
  apply (within_trans 1 1 1 0 _ w1); [done|apply within_sent].
Qed.

Lemma behaves_stay {A B} c w (x : A) (y : B) c1 w1 :
  behaves 1 1 c w (x, c1, w1) → behaves 2 1 c w (y, c1, w1).
Proof. apply (behaves_mono 1 1 2 1); lia. Qed.

Lemma FindEntities_behaves entityType filters fields c w :
  behaves 2 1 c w (FindEntities entityType filters fields c w).
Proof.
  rewrite FindEntities_paths.
  pose proof (GetAccessToken_behaves c w) as Hb.
  destruct (GetAccessToken c w) as [[[token [e|]] c1] w1];
    [by eapply behaves_stay|].
  destruct (json_Marshal _); [by eapply behaves_stay|]. cbv zeta.
  destruct (url_Parse_error _); [by eapply behaves_stay|].
  by eapply behaves_sent.
Qed.

Lemma GetEntity_behaves entityType id fields c w :
  behaves 2 1 c w (GetEntity entityType id fields c w).
Proof.
  rewrite GetEntity_paths.
  pose proof (GetAccessToken_behaves c w) as Hb.
  destruct (GetAccessToken c w) as [[[token [e|]] c1] w1];
    [by eapply behaves_stay|]. cbv zeta.
  destruct (url_Parse_error _); [by eapply behaves_stay|].
  by eapply behaves_sent.
Qed.

Lemma CreateEntity_behaves entityType data c w :
  behaves 2 1 c w (CreateEntity entityType data c w).
Proof.
  rewrite CreateEntity_paths.
  pose proof (GetAccessToken_behaves c w) as Hb.
  destruct (GetAccessToken c w) as [[[token [e|]] c1] w1];
    [by eapply behaves_stay|].
  destruct (createBody _); [by eapply behaves_stay|]. cbv zeta.
  destruct (url_Parse_error _); [by eapply behaves_stay|].
  by eapply behaves_sent.
Qed.

Lemma GetUserByLogin_behaves login c w :
  behaves 2 1 c w (GetUserByLogin login c w).
Proof.
  unfold GetUserByLogin, mbind, Go_bind.
  pose proof (FindEntities_behaves "human_users"
                (list_of [list_of [VString "login"; VString "is"; VString login]])
                ["id"; "name"; "login"; "email"] c w) as Hb.
  destruct (FindEntities _ _ _ c w) as [[[users [e|]] c1] w1]; [done|].
  by destruct (elems users).
Qed.

Lemma GetUserByName_behaves name c w :
  behaves 2 1 c w (GetUserByName name c w).
Proof.
  unfold GetUserByName, mbind, Go_bind.
  pose proof (FindEntities_behaves "human_users"
                (list_of [list_of [VString "name"; VString "is"; VString name]])
                ["id"; "name"; "login"; "email"] c w) as Hb.
  destruct (FindEntities _ _ _ c w) as [[[users [e|]] c1] w1]; [done|].
  by destruct (elems users).
Qed.

Lemma GetShotsForUser_behaves userID fields c w :
  behaves 4 2 c w (GetShotsForUser userID fields c w).
Proof.
  rewrite GetShotsForUser_paths.
  pose proof (FindEntities_behaves "tasks"
                (list_of [list_of [VString "task_assignees"; VString "is";
                                   entity_ref "HumanUser" userID]])
                ["entity"] c w) as Hb.
  change (FindEntities "tasks" _ _ c w)
    with (GetTasksForUser userID ["entity"] c w) in Hb.
  destruct (GetTasksForUser _ _ c w) as [[[tasks [e|]] c1] w1].
  - eapply (behaves_mono 2 1); [lia..|done].
  - cbv zeta. destruct (decide _).
    + eapply (behaves_mono 2 1); [lia..|done].
    + eapply (behaves_then 2 1 2 1); [exact Hb|].
      apply FindEntities_behaves.
Qed.

(** X4.  No method changes where the client talks to or as whom: the base
    URL, the API version, the HTTP client, the script name and the script
    key of the client are the same after every call, successful or not.
    Only the token fields can change. *)
Theorem settings_never_change c w :
  same_settings c (authenticate c w).1.2 ∧
  same_settings c (GetAccessToken c w).1.2 ∧
  same_settings c (IsAuthenticated c w).1.2 ∧
  (∀ entityType filters fields,
     same_settings c (FindEntities entityType filters fields c w).1.2) ∧
  (∀ entityType id fields,
     same_settings c (GetEntity entityType id fields c w).1.2) ∧
  (∀ entityType data,
     same_settings c (CreateEntity entityType data c w).1.2) ∧
  (∀ login, same_settings c (GetUserByLogin login c w).1.2) ∧
  (∀ name, same_settings c (GetUserByName name c w).1.2) ∧
  (∀ projectID fields, same_settings c (GetShots projectID fields c w).1.2) ∧
  (∀ shotID fields, same_settings c (GetTasksForShot shotID fields c w).1.2) ∧
  (∀ userID fields, same_settings c (GetTasksForUser userID fields c w).1.2) ∧
  (∀ userID shotID fields,
     same_settings c (GetUserShotTasks userID shotID fields c w).1.2) ∧
  (∀ userID fields, same_settings c (GetShotsForUser userID fields c w).1.2).
Proof.
  split_and!; intros.
  - apply authenticate_behaves.
  - apply GetAccessToken_behaves.
  - apply IsAuthenticated_behaves.
  - apply FindEntities_behaves.
  - apply GetEntity_behaves.
  - apply CreateEntity_behaves.
  - apply GetUserByLogin_behaves.
  - apply GetUserByName_behaves.
  - apply FindEntities_behaves.
  - apply FindEntities_behaves.
  - apply FindEntities_behaves.
  - apply FindEntities_behaves.
  - apply GetShotsForUser_behaves.
Qed.

(** X5.  The round trips of a call are bounded, and requests already sent
    are never forgotten.  [IsAuthenticated] sends nothing and refreshes
    nothing.  [authenticate] and [GetAccessToken] send at most one request.
    Every entity operation and every single-search query sends at most two
    requests, of which at most one token exchange.  [GetShotsForUser] sends
    at most four, of which at most two token exchanges. *)
Theorem round_trip_budget c w :
  within 1 1 w (authenticate c w).2 ∧
  within 1 1 w (GetAccessToken c w).2 ∧
  within 0 0 w (IsAuthenticated c w).2 ∧
  (∀ entityType filters fields,
     within 2 1 w (FindEntities entityType filters fields c w).2) ∧
  (∀ entityType id fields,
     within 2 1 w (GetEntity entityType id fields c w).2) ∧
  (∀ entityType data,
     within 2 1 w (CreateEntity entityType data c w).2) ∧
  (∀ login, within 2 1 w (GetUserByLogin login c w).2) ∧
  (∀ name, within 2 1 w (GetUserByName name c w).2) ∧
  (∀ projectID fields, within 2 1 w (GetShots projectID fields c w).2) ∧
  (∀ shotID fields, within 2 1 w (GetTasksForShot shotID fields c w).2) ∧
  (∀ userID fields, within 2 1 w (GetTasksForUser userID fields c w).2) ∧
  (∀ userID shotID fields,
     within 2 1 w (GetUserShotTasks userID shotID fields c w).2) ∧
  (∀ userID fields, within 4 2 w (GetShotsForUser userID fields c w).2).
Proof.
  split_and!; intros.
  - apply authenticate_behaves.
  - apply GetAccessToken_behaves.
  - apply IsAuthenticated_behaves.
  - apply FindEntities_behaves.
  - apply GetEntity_behaves.
  - apply CreateEntity_behaves.
  - apply GetUserByLogin_behaves.
  - apply GetUserByName_behaves.
  - apply FindEntities_behaves.
  - apply FindEntities_behaves.
  - apply FindEntities_behaves.
  - apply FindEntities_behaves.
  - apply GetShotsForUser_behaves.
Qed.

End Budget.

(** ** More on the entity requests *)

Section EntityRequests.
Context `{rt : Runtime}.

(** X6.  Every entity request carries the token the client holds at that
    moment, the refreshed one if the call refreshed it, as
    [Authorization: Bearer <token>], and asks for JSON.  A search is a POST
    of the marshalled body under the array content type, a fetch is a GET
    without body or content type, a creation is a POST of the marshalled
    data as JSON. *)
Theorem entity_requests_carry_token c w token c1 w1 :
  GetAccessToken c w = ((token, None), c1, w1) →
  let bearer := Some ("Bearer " +:+ accessToken c1) in
  (∀ entityType filters fields bodyJSON,
     json_Marshal (searchBody filters) = inr bodyJSON →
     url_Parse_error
       (URL (searchRequest c1 token entityType bodyJSON fields)) = None →
     ∃ r req,
       FindEntities entityType filters fields c w = (r, c1, sent req w1) ∧
       Method req = "POST" ∧ Body req = Some bodyJSON ∧
       Header req !! "Authorization" = bearer ∧
       Header req !! "Accept" = Some "application/json" ∧
       Header req !! "Content-Type"
         = Some "application/vnd+shotgun.api3_array+json") ∧
  (∀ entityType id fields,
     url_Parse_error (URL (getRequest c1 token entityType id fields)) = None →
     ∃ r req,
       GetEntity entityType id fields c w = (r, c1, sent req w1) ∧
       Method req = "GET" ∧ Body req = None ∧
       Header req !! "Authorization" = bearer ∧
       Header req !! "Accept" = Some "application/json" ∧
       Header req !! "Content-Type" = None) ∧
  (∀ entityType data bodyJSON,
     createBody data = inr bodyJSON →
     url_Parse_error (URL (createRequest c1 token entityType bodyJSON)) = None →
     ∃ r req,
       CreateEntity entityType data c w = (r, c1, sent req w1) ∧
       Method req = "POST" ∧ Body req = Some bodyJSON ∧
       Header req !! "Authorization" = bearer ∧
       Header req !! "Accept" = Some "application/json" ∧
       Header req !! "Content-Type" = Some "application/json").
Proof.
  intros Htok bearer. unfold bearer.
  rewrite <- (GetAccessToken_returns_stored _ _ _ _ _ Htok).
  split_and!.
  - intros entityType filters fields bodyJSON Hm Hu.
    rewrite FindEntities_paths, Htok, Hm. cbv beta iota zeta. rewrite Hu.
    eexists _, _. split; [done|]. by split_and!.
  - intros entityType id fields Hu.
    rewrite GetEntity_paths, Htok. cbv beta iota zeta. rewrite Hu.
    eexists _, _. split; [done|]. by split_and!.
  - intros entityType data bodyJSON Hm Hu.
    rewrite CreateEntity_paths, Htok, Hm. cbv beta iota zeta. rewrite Hu.
    eexists _, _. split; [done|]. by split_and!.
Qed.

Lemma settle_status {A R} expected (decode : string → error + A)
    (zero : R) ok st body :
  (st ≠ expected →
   settle expected decode zero ok (DoResponse st (inr body))
     = (zero, Some (ErrorString ("request failed with status " +:+ pretty st
                                 +:+ ": " +:+ body)))) ∧
  ((settle expected decode zero ok (DoResponse st (inr body))).2 = None →
   st = expected).
Proof.
  simpl. destruct (Z.eqb_spec st expected) as [->|Hne]; simpl.
  - split; [done|]. done.
  - split; [done|]. done.
Qed.

(** X7.  The status of the answer is checked exactly and before the body
    is looked at: a search and a fetch accept 200 only, a creation accepts
    201 only, so a creation answered 200 is an error, as is a search
    answered 201.  Any other status gives no result and an error that
    spells the status in decimal and the body as received; and a call
    without error had the accepted status. *)
Theorem status_is_checked_exactly c w token c1 w1 st body :
  GetAccessToken c w = ((token, None), c1, w1) →
  let rejected :=
    Some (ErrorString ("request failed with status " +:+ pretty st
                       +:+ ": " +:+ body)) in
  (∀ entityType filters fields bodyJSON,
     json_Marshal (searchBody filters) = inr bodyJSON →
     let req := searchRequest c1 token entityType bodyJSON fields in
     url_Parse_error (URL req) = None →
     httpClient c1 (wire w1) req = DoResponse st (inr body) →
     let run := FindEntities entityType filters fields c w in
     (st ≠ 200 → run = ((nil_slice, rejected), c1, sent req w1)) ∧
     (run.1.1.2 = None → st = 200)) ∧
  (∀ entityType id fields,
     let req := getRequest c1 token entityType id fields in
     url_Parse_error (URL req) = None →
     httpClient c1 (wire w1) req = DoResponse st (inr body) →
     let run := GetEntity entityType id fields c w in
     (st ≠ 200 → run = ((None, rejected), c1, sent req w1)) ∧
     (run.1.1.2 = None → st = 200)) ∧
  (∀ entityType data bodyJSON,
     createBody data = inr bodyJSON →
     let req := createRequest c1 token entityType bodyJSON in
     url_Parse_error (URL req) = None →
     httpClient c1 (wire w1) req = DoResponse st (inr body) →
     let run := CreateEntity entityType data c w in
     (st ≠ 201 → run = ((None, rejected), c1, sent req w1)) ∧
     (run.1.1.2 = None → st = 201)).
Proof.
  intros Htok rejected. split_and!.
  - intros entityType filters fields bodyJSON Hm req Hu Hr run. unfold run.
    rewrite FindEntities_paths, Htok, Hm. cbv beta iota zeta. fold req.
    rewrite Hu, Hr.
    destruct (settle_status 200 json_Unmarshal_items (@nil_slice Entity)
                (λ data, mk_slice (flatten <$> data)) st body) as [Hrej Hok].
    split; [by intros ->%Hrej|done].
  - intros entityType id fields req Hu Hr run. unfold run.
    rewrite GetEntity_paths, Htok. cbv beta iota zeta. fold req.
    rewrite Hu, Hr.
    destruct (settle_status 200 json_Unmarshal_item (@None Entity)
                (λ data, Some (flatten data)) st body) as [Hrej Hok].
    split; [by intros ->%Hrej|done].
  - intros entityType data bodyJSON Hm req Hu Hr run. unfold run.
    rewrite CreateEntity_paths, Htok, Hm. cbv beta iota zeta. fold req.
    rewrite Hu, Hr.
    destruct (settle_status 201 json_Unmarshal_item (@None Entity)
                (λ data, Some (flatten data)) st body) as [Hrej Hok].
    split; [by intros ->%Hrej|done].
Qed.

End EntityRequests.

(** ** Errors and their causes *)

Section Causes.
Context `{rt : Runtime}.

Lemma settle_Unwrap {A R} expected (decode : string → error + A)
    (zero : R) ok resp :
  (settle expected decode zero ok resp).2 ≫= Unwrap =
  libraryError expected decode resp.
Proof.
  destruct resp as [e|st [e|body]]; simpl; [done..|].
  destruct (negb _); [done|]. by destruct (decode body).
Qed.

Lemma authenticate_Unwrap c w :
  url_Parse_error (URL (tokenRequest c)) = None →
  (authenticate c w).1.1 ≫= Unwrap =
  libraryError 200 json_Unmarshal_token
    (httpClient c (wire w) (tokenRequest c)).
Proof.
  intros Hu. rewrite authenticate_paths, Hu. cbv zeta.
  destruct (httpClient c (wire w) (tokenRequest c)) as [e|st [e|body]];
    simpl; [done..|].
  destruct (negb _); [done|]. by destruct (json_Unmarshal_token body).
Qed.

(** X8.  The error of a library is never lost: [errors.Unwrap] gives it
    back.  For a failure of the entity request (sending, reading, or
    decoding a body that came with the accepted status) one [Unwrap] of the
    returned error is the library's error; a rejected status wraps nothing.
    For a token exchange the same holds of [authenticate]; [NewClient] and
    the entity operations wrap the error of the exchange once more, so that
    [Unwrap] gives the error of the exchange itself. *)
Theorem library_errors_stay_reachable c w :
  (url_Parse_error (URL (tokenRequest c)) = None →
   (authenticate c w).1.1 ≫= Unwrap =
   libraryError 200 json_Unmarshal_token
     (httpClient c (wire w) (tokenRequest c))) ∧
  (∀ config w0 err c' w',
     SiteURL config ≠ "" → ScriptName config ≠ "" → ScriptKey config ≠ "" →
     authenticate (freshClient config) w0 = (Some err, c', w') →
     ∃ outer, NewClient config w0 = (None, Some outer, w') ∧
              Unwrap outer = Some err) ∧
  (∀ token err c1 w1,
     GetAccessToken c w = ((token, Some err), c1, w1) →
     ∃ outer,
       Unwrap outer = Some err ∧
       (∀ entityType filters fields,
          FindEntities entityType filters fields c w
            = ((nil_slice, Some outer), c1, w1)) ∧
       (∀ entityType id fields,
          GetEntity entityType id fields c w = ((None, Some outer), c1, w1)) ∧
       (∀ entityType data,
          CreateEntity entityType data c w = ((None, Some outer), c1, w1))) ∧
  (∀ token c1 w1,
     GetAccessToken c w = ((token, None), c1, w1) →
     (∀ entityType filters fields bodyJSON,
        json_Marshal (searchBody filters) = inr bodyJSON →
        let req := searchRequest c1 token entityType bodyJSON fields in
        url_Parse_error (URL req) = None →
        (FindEntities entityType filters fields c w).1.1.2 ≫= Unwrap =
        libraryError 200 json_Unmarshal_items (httpClient c1 (wire w1) req)) ∧
     (∀ entityType id fields,
        let req := getRequest c1 token entityType id fields in
        url_Parse_error (URL req) = None →
        (GetEntity entityType id fields c w).1.1.2 ≫= Unwrap =
        libraryError 200 json_Unmarshal_item (httpClient c1 (wire w1) req)) ∧
     (∀ entityType data bodyJSON,
        createBody data = inr bodyJSON →
        let req := createRequest c1 token entityType bodyJSON in
        url_Parse_error (URL req) = None →
        (CreateEntity entityType data c w).1.1.2 ≫= Unwrap =
        libraryError 201 json_Unmarshal_item (httpClient c1 (wire w1) req))).
Proof.
  split_and!.
  - apply authenticate_Unwrap.
  - intros config w0 err c' w' H1 H2 H3 Ha.
    rewrite NewClient_paths, Ha by done. eauto.
  - intros token err c1 w1 Htok.
    exists (Errorf_w "failed to get access token: " err). split_and!.
    + done.
    + intros. by rewrite FindEntities_paths, Htok.
    + intros. by rewrite GetEntity_paths, Htok.
    + intros. by rewrite CreateEntity_paths, Htok.
  - intros token c1 w1 Htok. split_and!.
    + intros entityType filters fields bodyJSON Hm req Hu.
      rewrite FindEntities_paths, Htok, Hm. cbv beta iota zeta. fold req.
      rewrite Hu. apply settle_Unwrap.
    + intros entityType id fields req Hu.
      rewrite GetEntity_paths, Htok. cbv beta iota zeta. fold req.
      rewrite Hu. apply settle_Unwrap.
    + intros entityType data bodyJSON Hm req Hu.
      rewrite CreateEntity_paths, Htok, Hm. cbv beta iota zeta. fold req.
      rewrite Hu. apply settle_Unwrap.
Qed.

End Causes.

(** ** More on flattening *)

Section Flattening.

(** X9.  The keys of a flattened entity are [id], [type], the keys of the
    attributes and the keys of the relationships, and no others; in
    particular [id] and [type] are always there.  An attribute that no
    relationship shadows comes through with its value. *)
Theorem flatten_keys (item : Item) :
  dom (flatten item) =
    {["id"; "type"]} ∪ dom (Attributes item) ∪ dom (Relationships item) ∧
  is_Some (flatten item !! "id") ∧ is_Some (flatten item !! "type") ∧
  (∀ k a,
     Attributes item !! k = Some a → Relationships item !! k = None →
     flatten item !! k = Some a).
Proof.
  assert (dom (flatten item) =
          {["id"; "type"]} ∪ dom (Attributes item) ∪ dom (Relationships item))
    as Hdom.
  { rewrite flatten_union, !dom_union_L, !dom_insert_L, dom_empty_L.
    apply set_eq. intros k.
    rewrite !elem_of_union, !elem_of_singleton, elem_of_empty. tauto. }
  split_and!.
  - done.
  - apply elem_of_dom. rewrite Hdom, !elem_of_union, !elem_of_singleton. tauto.
  - apply elem_of_dom. rewrite Hdom, !elem_of_union, !elem_of_singleton. tauto.
  - intros k a Ha Hr. by rewrite flatten_lookup, Hr, Ha.
Qed.

(** X10.  The entity does not depend on the order in which [range] visits
    the two maps: assigning the attributes in any order and then the
    relationships in any order gives the same entity. *)
Theorem flatten_any_order (item : Item)
    (attributes relationships : list (string * GoVal)) :
  attributes ≡ₚ map_to_list (Attributes item) →
  relationships ≡ₚ map_to_list (Relationships item) →
  let assign (entity : Entity) (kv : string * GoVal) :=
    <[kv.1 := kv.2]> entity in
  foldl assign
    (foldl assign
       (<["type" := VString (Type_ item)]> (<["id" := VInt (ID item)]> ∅))
       attributes)
    relationships
  = flatten item.
Proof.
  intros Ha Hr assign. unfold assign, flatten.
  by rewrite (merge_into_any_order _ _ _ Ha), (merge_into_any_order _ _ _ Hr).
Qed.

End Flattening.

(** ** What the queries ask *)

(** Evaluates [json.Marshal] on a value whose shape is known. *)
Ltac marshal :=
  repeat first
    [ progress cbn [json_Marshal foldr uncurry map]
    | rewrite map_fold_foldr;
      match goal with |- context [map_to_list ?m] =>
        let l := eval vm_compute in (map_to_list m) in
        change (map_to_list m) with l end ];
  cbv -[pretty json_string json_object json_array fmap].

Section Queries.
Context `{rt : Runtime}.

Lemma FindEntities_sends entityType filters fields text c w token c1 w1 :
  GetAccessToken c w = ((token, None), c1, w1) →
  json_Marshal (searchBody filters) = inr text →
  let req := searchRequest c1 token entityType text fields in
  ∃ r err,
    FindEntities entityType filters fields c w =
      ((r, err), c1,
       match url_Parse_error (URL req) with
       | None => sent req w1
       | Some _ => w1
       end) ∧
    ∀ refusal,
      url_Parse_error (URL req) = Some refusal →
      r = nil_slice ∧
      err = Some (Errorf_w "failed to create request: " refusal).
Proof.
  intros Htok Hm req. rewrite FindEntities_paths, Htok, Hm.
  cbv beta iota zeta. fold req.
  destruct (url_Parse_error (URL req)) as [refusal|].
  - exists nil_slice, (Some (Errorf_w "failed to create request: " refusal)).
    split; [reflexivity|]. intros ? [= <-]. split; reflexivity.
  - destruct (settle _ _ _ _ _) as [r err]. exists r, err.
    split; [reflexivity|]. intros ? [=].
Qed.

Lemma marshal_condition field value text :
  json_Marshal value = inr text →
  json_Marshal (searchBody (list_of [list_of [VString field; VString "is"; value]]))
    = inr (filters_json [condition_json field text]).
Proof.
  intros Hv. unfold searchBody, is_nil, list_of.
  cbn [json_Marshal]. rewrite map_fold_singleton.
  cbn [json_Marshal map]. rewrite Hv. reflexivity.
Qed.

Lemma marshal_ref typ id :
  json_Marshal (entity_ref typ id) = inr (ref_json typ id).
Proof. unfold entity_ref. marshal. reflexivity. Qed.

Lemma marshal_two_conditions shotID userID :
  json_Marshal
    (searchBody
       (list_of
          [list_of [VString "entity"; VString "is"; entity_ref "Shot" shotID];
           list_of [VString "task_assignees"; VString "is";
                    entity_ref "HumanUser" userID]]))
  = inr (filters_json
           [condition_json "entity" (ref_json "Shot" shotID);
            condition_json "task_assignees" (ref_json "HumanUser" userID)]).
Proof.
  unfold searchBody, is_nil, list_of.
  cbn [json_Marshal]. rewrite map_fold_singleton.
  cbn [json_Marshal map]. rewrite !marshal_ref. reflexivity.
Qed.

(** X11.  What each query puts on the wire once the token is at hand: its
    body always can be marshalled, and when [http.NewRequest] accepts the
    URL it sends one search of the entity type of the query, for the fields
    asked or, when none are asked, the default fields of the query; when
    the URL is refused it sends nothing and returns the error of the
    refusal.  The body holds one equality condition on the login, the name,
    the project, the shot or the assignee, two conditions for
    [GetUserShotTasks], and the empty array of filters for [GetShots]
    without a positive project id. *)
Theorem queries_on_the_wire c w token c1 w1 :
  GetAccessToken c w = ((token, None), c1, w1) →
  let asks {A} (run : (A * option error) * Client * World)
      entityType text fields :=
    let req := searchRequest c1 token entityType text fields in
    run.1.2 = c1 ∧
    match url_Parse_error (URL req) with
    | None => run.2 = sent req w1
    | Some refusal =>
      run.2 = w1 ∧
      run.1.1.2 = Some (Errorf_w "failed to create request: " refusal)
    end in
  (∀ login,
     asks (GetUserByLogin login c w) "human_users"
       (filters_json [condition_json "login" (json_string login)])
       ["id"; "name"; "login"; "email"]) ∧
  (∀ name,
     asks (GetUserByName name c w) "human_users"
       (filters_json [condition_json "name" (json_string name)])
       ["id"; "name"; "login"; "email"]) ∧
  (∀ projectID fields,
     asks (GetShots projectID fields c w) "shots"
       (if 0 <? projectID then
          filters_json [condition_json "project" (ref_json "Project" projectID)]
        else filters_json [])
       (fields_or fields ["code"; "description"; "sg_status_list"])) ∧
  (∀ shotID fields,
     asks (GetTasksForShot shotID fields c w) "tasks"
       (filters_json [condition_json "entity" (ref_json "Shot" shotID)])
       (fields_or fields ["content"; "sg_status_list"; "task_assignees"])) ∧
  (∀ userID fields,
     asks (GetTasksForUser userID fields c w) "tasks"
       (filters_json
          [condition_json "task_assignees" (ref_json "HumanUser" userID)])
       (fields_or fields ["content"; "entity"; "sg_status_list"; "project"])) ∧
  (∀ userID shotID fields,
     asks (GetUserShotTasks userID shotID fields c w) "tasks"
       (filters_json
          [condition_json "entity" (ref_json "Shot" shotID);
           condition_json "task_assignees" (ref_json "HumanUser" userID)])
       (fields_or fields ["content"; "sg_status_list"; "task_assignees"])).
Proof.
  intros Htok asks.
  assert (∀ entityType filters fields text,
            json_Marshal (searchBody filters) = inr text →
            asks _ (FindEntities entityType filters fields c w)
              entityType text fields) as Hfind.
  { intros entityType filters fields text Hm. unfold asks.
    destruct (FindEntities_sends entityType filters fields text
                c w token c1 w1 Htok Hm) as (r & err & -> & Hrefused).
    clear Hm. split; [reflexivity|].
    destruct (url_Parse_error _) as [refusal|]; [|reflexivity].
    split; [reflexivity|]. by destruct (Hrefused refusal eq_refl) as [_ ->]. }
  assert (∀ (find : slice Entity * option error * Client * World)
            entityType text fields,
            asks _ find entityType text fields →
            ∀ run : option Entity * option error * Client * World,
              run.1.2 = find.1.2 → run.2 = find.2 →
              (∀ e, find.1.1.2 = Some e → run.1.1.2 = Some e) →
              asks _ run entityType text fields) as Hpick.
  { intros find entityType text fields [Hc Hw] run Hrc Hrw Herr.
    unfold asks. rewrite Hrc, Hrw. split; [exact Hc|].
    destruct (url_Parse_error _) as [refusal|]; [|exact Hw].
    destruct Hw as [Hw He]. split; [exact Hw|]. by apply Herr. }
  split_and!.
  - intros login.
    pose proof (Hfind "human_users" _ ["id"; "name"; "login"; "email"] _
                  (marshal_condition "login" (VString login) _ eq_refl))
      as Hsearch.
    eapply Hpick; [exact Hsearch|..];
      unfold GetUserByLogin, mbind, Go_bind;
      destruct (FindEntities _ _ _ c w) as [[[users [e|]] c'] w'];
      try destruct (elems users); try reflexivity; by intros ? [= <-].
  - intros name.
    pose proof (Hfind "human_users" _ ["id"; "name"; "login"; "email"] _
                  (marshal_condition "name" (VString name) _ eq_refl))
      as Hsearch.
    eapply Hpick; [exact Hsearch|..];
      unfold GetUserByName, mbind, Go_bind;
      destruct (FindEntities _ _ _ c w) as [[[users [e|]] c'] w'];
      try destruct (elems users); try reflexivity; by intros ? [= <-].
  - intros projectID fields. unfold GetShots. destruct (0 <? projectID).
    + apply Hfind, marshal_condition, marshal_ref.
    + apply Hfind, (searchBody_marshal VNil).
  - intros shotID fields. apply Hfind, marshal_condition, marshal_ref.
  - intros userID fields. apply Hfind, marshal_condition, marshal_ref.
  - intros userID shotID fields. apply Hfind, marshal_two_conditions.
Qed.

End Queries.

(** ** The shots of a user, and the environment *)

Section ShotsAndEnvironment.
Context `{rt : Runtime}.

Lemma add_shot_size (shotIDs : gset Z) (task : Entity) :
  (size (add_shot shotIDs task) ≤ S (size shotIDs))%nat.
Proof.
  assert (∀ z : Z, (size ({[z]} ∪ shotIDs) ≤ S (size shotIDs))%nat) as Hadd.
  { intros z. rewrite size_union_alt, size_singleton.
    apply le_n_S, subseteq_size, subseteq_difference_l. reflexivity. }
  unfold add_shot.
  repeat (case_match; try lia; try apply Hadd).
Qed.

Lemma foldl_add_shot_size (tasks : list Entity) (shotIDs : gset Z) :
  (size (foldl add_shot shotIDs tasks) ≤ size shotIDs + length tasks)%nat.
Proof.
  revert shotIDs. induction tasks as [|task tasks IH]; intros shotIDs.
  - simpl. lia.
  - cbn [foldl length]. specialize (IH (add_shot shotIDs task)).
    pose proof (add_shot_size shotIDs task). lia.
Qed.

(** X12.  The second search of [GetShotsForUser] asks for at most as many
    shots as the first search found tasks; when it asks for none it is not
    made. *)
Theorem shot_ids_bounded userID fields c w tasks c1 w1 :
  (∀ s, range_keys s ≡ₚ elements s) →
  GetTasksForUser userID ["entity"] c w = ((tasks, None), c1, w1) →
  let ids := range_keys (foldl add_shot ∅ (elems tasks)) in
  (length ids ≤ length (elems tasks))%nat ∧
  GetShotsForUser userID fields c w =
    if decide (length ids = 0%nat) then ((mk_slice [], None), c1, w1)
    else FindEntities "shots" (shotsFilter ids)
           (fields_or fields ["code"; "description"; "sg_status_list"; "project"])
           c1 w1.
Proof.
  intros Hrange Hrun ids.
  assert (length ids = size (foldl add_shot (∅ : gset Z) (elems tasks))) as Hlen.
  { unfold ids. by rewrite Hrange. }
  split.
  - rewrite Hlen.
    pose proof (foldl_add_shot_size (elems tasks) ∅) as Hs.
    rewrite size_empty in Hs. lia.
  - rewrite GetShotsForUser_paths, Hrun. cbv beta iota zeta. fold ids.
    rewrite Hlen. by destruct (decide _).
Qed.

Variable godotenv_Load : string → Environ → Environ.

(** X13.  [NewClientFromEnv] reads the three variables after the [.env]
    files were tried.  A variable that is then unset or empty is refused
    with the error of the first one missing, in the order site URL, script
    name, script key, and nothing is sent.  Otherwise the client is built
    as [NewClient] builds it from these three values with the default API
    version and the default HTTP client, by exactly one token exchange. *)
Theorem NewClientFromEnv_variables env w :
  let env' := tryLoadEnv godotenv_Load env in
  let url := getEnv env' "FLOW_SITE_URL" in
  let name := getEnv env' "FLOW_SCRIPT_NAME" in
  let key := getEnv env' "FLOW_SCRIPT_KEY" in
  (url = "" ∨ name = "" ∨ key = "" →
   NewClientFromEnv godotenv_Load env w =
     (None,
      Some (ErrorString
              ((if String.eqb url "" then "FLOW_SITE_URL"
                else if String.eqb name "" then "FLOW_SCRIPT_NAME"
                else "FLOW_SCRIPT_KEY")
               +:+ " environment variable is required")),
      w, env')) ∧
  (url ≠ "" → name ≠ "" → key ≠ "" →
   let config := {| SiteURL := url; ScriptName := name;
                    ScriptKey := key; APIVersion := "";
                    HTTPClient_ := None |} in
   NewClientFromEnv godotenv_Load env w = (NewClient config w, env') ∧
   exchanges (NewClient config w).2 = S (exchanges w) ∧
   (∀ client,
      (NewClient config w).1.1 = Some client →
      baseURL client = url ∧ apiVersion client = "v1.1" ∧
      httpClient client = defaultHTTPClient ∧
      scriptName client = name ∧ scriptKey client = key)).
Proof.
  intros env' url name key. unfold NewClientFromEnv.
  fold env'. cbv zeta. fold url name key. split.
  - intros Hmissing.
    destruct (String.eqb_spec url ""); [done|].
    destruct (String.eqb_spec name ""); [done|].
    destruct (String.eqb_spec key ""); [done|].
    by destruct Hmissing as [?|[?|?]].
  - intros H1 H2 H3.
    set (config := {| SiteURL := url; ScriptName := name; ScriptKey := key;
                      APIVersion := ""; HTTPClient_ := None |}).
    destruct (String.eqb_spec url ""); [done|].
    destruct (String.eqb_spec name ""); [done|].
    destruct (String.eqb_spec key ""); [done|].
    split; [done|].
    rewrite NewClient_paths by done.
    pose proof (authenticate_exchanges (freshClient config) w) as He.
    pose proof (authenticate_behaves (freshClient config) w) as [Hs _].
    destruct (authenticate (freshClient config) w) as [[[e|] c'] w'];
      simpl in *; (split; [done|]); [done|].
    intros client [= <-]. destruct Hs as (?&?&?&?&?). by split_and!.
Qed.

End ShotsAndEnvironment.

(** *** The statements on the site scenario *)

Lemma NewClient_missing_credentials_witness :
  NewClient (rt := site_rt)
    {| SiteURL := site; ScriptName := ""; ScriptKey := "";
       APIVersion := ""; HTTPClient_ := None |} world0
  = (None, Some (ErrorString "script name is required"), world0).
Proof.
  exact (NewClient_missing_credentials (rt := site_rt)
           {| SiteURL := site; ScriptName := ""; ScriptKey := "";
              APIVersion := ""; HTTPClient_ := None |} world0
           (or_intror (or_introl eq_refl))).
Defined.

Lemma NewClient_token_request_witness :
  ∃ req,
    wire (NewClient (rt := site_rt) site_config world0).2 = [req] ∧
    URL req = "https://flow.test/api/v1.1/auth/access_token" ∧
    Body req =
      Some "client_id=pipeline&client_secret=s3cret&grant_type=client_credentials".
Proof.
  pose proof (NewClient_token_request (rt := site_rt) site_config world0)
    as Hsent.
  assert (site ≠ "" ∧ "pipeline" ≠ "" ∧ "s3cret" ≠ "") as (H1 & H2 & H3)
    by (unfold site; split_and!; discriminate).
  specialize (Hsent H1 H2 H3). hnf in Hsent. destruct Hsent as [Hwire _].
  eexists. split; [exact Hwire|]. split; reflexivity.
Defined.

Lemma token_reused_until_margin_witness :
  (∃ c' w',
     authenticate (rt := site_rt) (site_client 0) world0 = (None, c', w') ∧
     GetAccessToken (rt := site_rt) c' w' = (("tok-1", None), c', ticked w')) ∧
  (∃ c' w',
     authenticate (rt := spent_rt) (site_client 0) world0 = (None, c', w') ∧
     exchanges (GetAccessToken (rt := spent_rt) c' w').2 = 2%nat).
Proof.
  split.
  - pose proof (site_token_granted ms_clock hour_token [] []
                  (site_client 0) world0 eq_refl eq_refl eq_refl) as Hg.
    pose proof (token_granted_authenticate (rt := site_rt) _ _ _ Hg) as Ha.
    destruct (token_reused_until_margin (rt := site_rt) _ _ _ _ _ Hg Ha)
      as (_ & Hreuse & _).
    eexists _, _. split; [exact Ha|].
    apply Hreuse. vm_compute. discriminate.
  - pose proof (site_token_granted ms_clock spent_token [] []
                  (site_client 0) world0 eq_refl eq_refl eq_refl) as Hg.
    pose proof (token_granted_authenticate (rt := spent_rt) _ _ _ Hg) as Ha.
    destruct (token_reused_until_margin (rt := spent_rt) _ _ _ _ _ Hg Ha)
      as (_ & _ & _ & Hshort & Hbounded).
    eexists _, _. split; [exact Ha|].
    rewrite Hbounded; [reflexivity| |].
    + vm_compute. split; [discriminate|reflexivity].
    + vm_compute. discriminate.
Defined.

Lemma entity_requests_carry_token_witness :
  let c := site_client 60000000000 in
  ∃ r req,
    FindEntities (rt := site_rt) "shots" VNil ["code"] c world0
      = (r, c, sent req (ticked world0)) ∧
    Header req !! "Authorization" = Some "Bearer tok-0".
Proof.
  intros c.
  destruct (entity_requests_carry_token (rt := site_rt) c world0
              "tok-0" c (ticked world0) eq_refl) as (Hfind & _).
  destruct (Hfind "shots" VNil ["code"] _
              ltac:(vm_compute; reflexivity) eq_refl)
    as (r & req & Hrun & _ & _ & Hauth & _).
  exists r, req. split; [exact Hrun|exact Hauth].
Defined.

Lemma status_is_checked_exactly_witness :
  let c := site_client 60000000000 in
  (GetEntity (rt := site_rt) "assets" 3 [] c world0).1.1
    = (None, Some (ErrorString "request failed with status 404: not found")) ∧
  (CreateEntity (rt := site_rt) "garbled" None c world0).1.1
    = (None, Some (ErrorString "request failed with status 200: <html>")).
Proof.
  intros c. split.
  - destruct (status_is_checked_exactly (rt := site_rt) c world0
                "tok-0" c (ticked world0) 404 "not found" eq_refl)
      as (_ & Hget & _).
    destruct (Hget "assets" 3 [] eq_refl eq_refl) as [Hrej _].
    rewrite Hrej; [reflexivity|discriminate].
  - destruct (status_is_checked_exactly (rt := site_rt) c world0
                "tok-0" c (ticked world0) 200 "<html>" eq_refl)
      as (_ & _ & Hcreate).
    destruct (Hcreate "garbled" None "null" eq_refl eq_refl eq_refl)
      as [Hrej _].
    rewrite Hrej; [reflexivity|discriminate].
Defined.

Lemma library_errors_stay_reachable_witness :
  let c := site_client 60000000000 in
  (FindEntities (rt := site_rt) "unreachable" VNil [] c world0).1.1.2
    ≫= Unwrap = Some (LibError "dial tcp: connection refused").
Proof.
  intros c.
  destruct (library_errors_stay_reachable (rt := site_rt) c world0)
    as (_ & _ & _ & Hsent).
  destruct (Hsent "tok-0" c (ticked world0) eq_refl) as (Hfind & _).
  rewrite (Hfind "unreachable" VNil [] _
             ltac:(vm_compute; reflexivity) eq_refl).
  reflexivity.
Defined.

Lemma flatten_keys_witness :
  flatten clash_shot !! "code" = Some (VString "sh010").
Proof.
  destruct (flatten_keys clash_shot) as (_ & _ & _ & Hkept).
  apply Hkept; reflexivity.
Defined.

Lemma flatten_any_order_witness :
  foldl (λ (entity : Entity) kv, <[kv.1 := kv.2]> entity)
    (foldl (λ (entity : Entity) kv, <[kv.1 := kv.2]> entity)
       (<["type" := VString "Shot"]> (<["id" := VInt 7]> ∅))
       (reverse (map_to_list (Attributes clash_shot))))
    (map_to_list (Relationships clash_shot))
  = flatten clash_shot.
Proof.
  apply (flatten_any_order clash_shot).
  - vm_compute. apply perm_swap.
  - reflexivity.
Defined.

Lemma queries_on_the_wire_witness :
  let c := site_client 60000000000 in
  (GetTasksForUser (rt := site_rt) 42 [] c world0).2
  = sent (searchRequest c "tok-0" "tasks"
            (filters_json (rt := site_rt)
               [condition_json (rt := site_rt) "task_assignees"
                  (ref_json (rt := site_rt) "HumanUser" 42)])
            ["content"; "entity"; "sg_status_list"; "project"])
      (ticked world0).
Proof.
  intros c.
  destruct (queries_on_the_wire (rt := site_rt) c world0
              "tok-0" c (ticked world0) eq_refl)
    as (_ & _ & _ & _ & Htasks & _).
  destruct (Htasks 42 []) as [_ Hwire]. exact Hwire.
Defined.

Lemma shot_ids_bounded_witness :
  let c := site_client 60000000000 in
  (length (range_keys (Runtime := user_rt)
             (foldl (add_shot (rt := user_rt)) ∅ (flatten <$> user_tasks)))
   ≤ 7)%nat.
Proof.
  intros c.
  destruct (shot_ids_bounded (rt := user_rt) 42 [] c world0
              (mk_slice (flatten <$> user_tasks)) _ _
              (λ s, reflexivity (elements s))
              (run_eq _ _ ltac:(vm_compute; reflexivity)))
    as [Hlen _].
  exact Hlen.
Defined.

Lemma NewClientFromEnv_variables_witness :
  let dotenv : Environ :=
    {[ "FLOW_SITE_URL" := site; "FLOW_SCRIPT_NAME" := "pipeline";
       "FLOW_SCRIPT_KEY" := "from-file" ]} in
  let env : Environ := {[ "FLOW_SCRIPT_KEY" := "s3cret" ]} in
  NewClientFromEnv (rt := site_rt) (keep_loader ∅) env world0
    = (None,
       Some (ErrorString "FLOW_SITE_URL environment variable is required"),
       world0, env) ∧
  (NewClientFromEnv (rt := site_rt) (keep_loader dotenv) env world0).1
    = NewClient (rt := site_rt) site_config world0.
Proof.
  intros dotenv env. split.
  - destruct (NewClientFromEnv_variables (rt := site_rt) (keep_loader ∅)
                env world0) as [Hmissing _].
    rewrite Hmissing; [reflexivity|]. left. reflexivity.
  - destruct (NewClientFromEnv_variables (rt := site_rt) (keep_loader dotenv)
                env world0) as [_ Hset].
    destruct Hset as (Hrun & _); [discriminate..|].
    rewrite Hrun. reflexivity.
Defined.

(** ** The margin, seen from the caller *)

Section Margin.
Context `{rt : Runtime}.

(** X15.  [IsAuthenticated] and [GetAccessToken] do not agree in the last
    60 seconds of a token: there [IsAuthenticated] answers true, changing
    nothing, and the [GetAccessToken] that follows makes a new exchange all
    the same. *)
Theorem authenticated_yet_refreshed c w :
  accessToken c ≠ "" →
  clock (ticks w) < tokenExpiry c →
  tokenExpiry c < clock (S (ticks w)) + 60 * 1000000000 →
  IsAuthenticated c w = (true, c, ticked w) ∧
  exchanges (GetAccessToken c (ticked w)).2 = S (exchanges w).
Proof.
  intros Htok Hvalid Hmargin. split.
  - unfold IsAuthenticated, mbind, mret, Go_bind, Go_ret, self, time_Now,
      Time_Before. simpl.
    apply String.eqb_neq in Htok as ->. simpl.
    by apply Z.ltb_lt in Hvalid as ->.
  - rewrite GetAccessToken_paths. simpl.
    apply Z.ltb_lt in Hmargin as ->.
    pose proof (authenticate_exchanges c (ticked (ticked w))) as He.
    by destruct (authenticate c (ticked (ticked w))) as [[? ?] ?].
Qed.

(** X16.  A refresh that fails costs the caller nothing but the call:
    [GetAccessToken] then returns the empty string, never the old token,
    together with the error of the one exchange it made, and the client is
    as it was, old token included. *)
Theorem GetAccessToken_failure c w token err c1 w1 :
  GetAccessToken c w = ((token, Some err), c1, w1) →
  token = "" ∧ c1 = c ∧ exchanges w1 = S (exchanges w) ∧
  tokenExpiry c < clock (ticks w) + 60 * 1000000000 ∧
  authenticate c (ticked w) = (Some err, c, w1).
Proof.
  rewrite GetAccessToken_paths. destruct (_ <? _) eqn:Hlt; [|done].
  apply Z.ltb_lt in Hlt.
  pose proof (authenticate_exchanges c (ticked w)) as He.
  destruct (authenticate c (ticked w)) as [[[e|] c'] w'] eqn:Ha; [|done].
  intros [= <- <- <- <-].
  by rewrite (authenticate_failure _ _ _ _ _ Ha).
Qed.

End Margin.

Lemma authenticated_yet_refreshed_witness :
  IsAuthenticated (rt := site_rt) (site_client 30000000000) world0
    = (true, site_client 30000000000, ticked world0) ∧
  exchanges (GetAccessToken (rt := site_rt) (site_client 30000000000)
               (ticked world0)).2 = 1%nat.
Proof.
  apply (authenticated_yet_refreshed (rt := site_rt)
           (site_client 30000000000) world0).
  - discriminate.
  - reflexivity.
  - reflexivity.
Defined.

Lemma GetAccessToken_failure_witness :
  ∃ err w1,
    GetAccessToken (rt := offline_rt) offline_client world0
      = (("", Some err), offline_client, w1) ∧
    exchanges w1 = 1%nat.
Proof.
  destruct (GetAccessToken_failure (rt := offline_rt) offline_client world0
              _ _ _ _ (run_eq _ _ ltac:(vm_compute; reflexivity)))
    as (_ & Hc & He & _ & Ha).
  eexists _, _. split; [|exact He].
  apply run_eq_client; [vm_compute; reflexivity|exact Hc].
Defined.
